(** * ClipDrop clipboard module: a shallow embedding of
      [src/clipdrop/static/js/clipboard.js]

    The script is browser glue: every function reads a few DOM attributes,
    asks the platform or the user something (clipboard, [confirm],
    [prompt], [fetch]) and reacts with toasts, reloads and DOM edits.  The
    embedding keeps that shape:

    - JavaScript strings are sequences of UTF-16 code units;
    - parsed JSON responses are values of an inductive type, with the
      property access, truthiness and [||] of the language;
    - everything outside the script (the clipboard, the server, the user,
      the optional globals [window.showToast] and
      [window.showConfirmModal]) is a record of oracles, [env];
    - a handler is a computation in a small monad that reads [env],
      threads the children of [document.body], may throw, and writes the
      sequence of observable effects it performs. *)

From Stdlib Require Import List NArith Bool String Ascii Arith Lia.
From Stdlib Require Import Floats.SpecFloat.
Import ListNotations.

Set Implicit Arguments.
Set Warnings "-register-all".

(* ================================================================== *)
(** ** JavaScript strings *)

Module JsString.

(** A string is its sequence of UTF-16 code units; [length] and
    [substring] of the language count code units. *)
Definition t := list N.

Definition lit (s : string) : t :=
  map N_of_ascii (list_ascii_of_string s).

Fixpoint eqb (a b : t) : bool :=
  match a, b with
  | [], [] => true
  | x :: a', y :: b' => N.eqb x y && eqb a' b'
  | _, _ => false
  end.

Definition is_empty (s : t) : bool :=
  match s with [] => true | _ => false end.

(** WhiteSpace and LineTerminator code points of ECMAScript, the ones
    [String.prototype.trim] strips. *)
Definition is_whitespace (c : N) : bool :=
  ((9 <=? c) && (c <=? 13) || (c =? 32) || (c =? 160) || (c =? 5760)
   || (8192 <=? c) && (c <=? 8202) || (c =? 8232) || (c =? 8233)
   || (c =? 8239) || (c =? 8287) || (c =? 12288) || (c =? 65279))%N.

Fixpoint trimStart (s : t) : t :=
  match s with
  | c :: s' => if is_whitespace c then trimStart s' else s
  | [] => []
  end.

Definition trimEnd (s : t) : t := rev (trimStart (rev s)).

Definition trim (s : t) : t := trimEnd (trimStart s).

(** [s.substring(a, b)] for non-negative integer arguments: both are
    clamped to the length and swapped when out of order. *)
Definition substring (s : t) (a b : nat) : t :=
  let a' := Nat.min a (List.length s) in
  let b' := Nat.min b (List.length s) in
  firstn (Nat.max a' b' - Nat.min a' b') (skipn (Nat.min a' b') s).

(** What a template literal prints for the result of [getAttribute]. *)
Definition of_attr (o : option t) : t :=
  match o with Some s => s | None => lit "null" end.

End JsString.

Abbreviation jsstring := JsString.t.
Abbreviation lit := JsString.lit.

(* ================================================================== *)
(** ** Values of the language, as far as a parsed response needs them *)

Inductive value : Type :=
| VUndefined
| VNull
| VBool (b : bool)
| VNum (x : spec_float)
| VStr (s : jsstring)
| VArr (items : list value)
| VObj (fields : list (jsstring * value)).

(** The result of a step that may throw (or a promise that may reject). *)
Inductive outcome (A : Type) : Type :=
| Ok (a : A)
| Throws.
Arguments Throws {A}.

(** [JSON.parse] keeps the last of several bindings of one key. *)
Fixpoint lookup_field (fields : list (jsstring * value)) (k : jsstring)
  : option value :=
  match fields with
  | [] => None
  | (k', v) :: rest =>
      match lookup_field rest k with
      | Some w => Some w
      | None => if JsString.eqb k' k then Some v else None
      end
  end.

(** [v.k] for the keys the script reads ([status], [message], [favorite],
    [kept]): none of them is a property of a built-in prototype, so only an
    object can answer; reading a property of [null] or [undefined] is a
    TypeError. *)
Definition get_prop (v : value) (k : jsstring) : outcome value :=
  match v with
  | VUndefined | VNull => Throws
  | VObj fields =>
      match lookup_field fields k with
      | Some w => Ok w
      | None => Ok VUndefined
      end
  | _ => Ok VUndefined
  end.

Definition truthy (v : value) : bool :=
  match v with
  | VUndefined | VNull => false
  | VBool b => b
  | VNum (S754_zero _) | VNum S754_nan => false
  | VNum _ => true
  | VStr s => negb (JsString.is_empty s)
  | VArr _ | VObj _ => true
  end.

(** [a || b] *)
Definition js_or (a b : value) : value := if truthy a then a else b.

(** [v === 'literal'] *)
Definition strict_eq_str (v : value) (s : jsstring) : bool :=
  match v with
  | VStr x => JsString.eqb x s
  | _ => false
  end.

(* ================================================================== *)
(** ** The page: elements, requests, observable effects *)

(** An element with its attributes; [getAttribute] answers [null] for a
    missing one. *)
Record element : Type := { attributes : list (jsstring * jsstring) }.

Fixpoint assoc (l : list (jsstring * jsstring)) (k : jsstring)
  : option jsstring :=
  match l with
  | [] => None
  | (k', v) :: rest => if JsString.eqb k' k then Some v else assoc rest k
  end.

Definition getAttribute (b : element) (name : jsstring) : option jsstring :=
  assoc (attributes b) name.

(** A child of [document.body]. *)
Record node : Type := {
  node_id : nat;
  tagName : jsstring;
  node_value : jsstring;
  node_style : list (jsstring * jsstring)
}.

Record dom : Type := {
  body_children : list node;
  next_id : nat
}.

(** The value of an entry of a [FormData]: a string, or a [File] (here
    its name) for a file control. *)
Inductive form_value : Type :=
| FText (s : jsstring)
| FFile (filename : jsstring).

(** [formData.get(name)]: the value of the first entry of that name,
    [null] when there is none. *)
Fixpoint form_get (entries : list (jsstring * form_value)) (name : jsstring)
  : option form_value :=
  match entries with
  | [] => None
  | (k, v) :: rest => if JsString.eqb k name then Some v else form_get rest name
  end.

(** The body of a POST: [JSON.stringify payload] (kept as the payload it
    serialises) or the entries of a [FormData]. *)
Inductive req_body : Type :=
| JsonBody (payload : value)
| FormBody (entries : list (jsstring * form_value)).

Record request : Type := {
  req_url : jsstring;
  req_method : jsstring;
  req_headers : list (jsstring * jsstring);
  req_body_of : req_body
}.

(** What [response.json()] gives back. *)
Definition response := outcome value.

Inductive event : Type :=
| EWriteText (text : jsstring)
| ESelect
| EExecCommand (command : jsstring)
| EFetch (r : request)
| EToast (message : value) (kind : jsstring)
| EReload (delay_ms : N)
| EConfirm (message : jsstring) (answer : bool)
| EPrompt (message default : jsstring) (answer : option jsstring)
| EModalShown (title message confirmText : jsstring)
| EModalConfirmed
| EPreventDefault
| EFocus
| ESetButtonLoading
| EClearButtonLoading
| EInlineEditOpened (initial : jsstring)
| ELinkRestored.

Definition trace := list event.

(** Everything the script does not decide itself. *)
Record env : Type := {
  (** [window.showToast] is defined *)
  has_showToast : bool;
  (** [window.showConfirmModal]: [None] when undefined, otherwise the
      user's decision in it *)
  confirm_modal : option bool;
  (** the user's answer to the native [confirm(message)] *)
  native_confirm : jsstring -> bool;
  (** the user's answer to [prompt(message, default)], [None] on cancel *)
  native_prompt : jsstring -> jsstring -> option jsstring;
  (** [navigator.clipboard.writeText(text)] resolves or rejects *)
  clipboard_writeText : jsstring -> outcome unit;
  (** [document.execCommand(command)] returns a boolean (false when the
      command is unsupported or disabled) or throws *)
  document_execCommand : jsstring -> outcome bool;
  (** [fetch(request)] resolves with a response or rejects *)
  net_fetch : request -> outcome response
}.

(* ================================================================== *)
(** ** The monad of handlers *)

Definition M (A : Type) : Type := env -> dom -> outcome A * dom * trace.

Definition ret {A} (a : A) : M A := fun _ d => (Ok a, d, []).

Definition bind {A B} (m : M A) (k : A -> M B) : M B :=
  fun e d =>
    match m e d with
    | (Ok a, d1, t1) =>
        match k a e d1 with
        | (r, d2, t2) => (r, d2, t1 ++ t2)
        end
    | (Throws, d1, t1) => (Throws, d1, t1)
    end.

(** [try { m } catch (_) { h }]: what [m] did before throwing stays done. *)
Definition try_catch {A} (m h : M A) : M A :=
  fun e d =>
    match m e d with
    | (Ok a, d1, t1) => (Ok a, d1, t1)
    | (Throws, d1, t1) =>
        match h e d1 with
        | (r, d2, t2) => (r, d2, t1 ++ t2)
        end
    end.

Declare Scope js_scope.
Delimit Scope js_scope with js.
Notation "x <- c1 ;; c2" := (bind c1 (fun x => c2))
  (at level 200, c1 at level 100, c2 at level 200) : js_scope.
Notation "c1 ;; c2" := (bind c1 (fun _ => c2))
  (at level 200, right associativity) : js_scope.
Notation "'try' m 'catch' h" := (try_catch m h)
  (at level 10, m at level 200, h at level 200) : js_scope.
Open Scope js_scope.

Definition ask : M env := fun e d => (Ok e, d, []).
Definition log (ev : event) : M unit := fun _ d => (Ok tt, d, [ev]).
Definition of_outcome {A} (o : outcome A) : M A := fun _ d => (o, d, []).
Definition when (b : bool) (m : M unit) : M unit := if b then m else ret tt.

Definition result_of {A} (r : outcome A * dom * trace) : outcome A :=
  fst (fst r).
Definition dom_of {A} (r : outcome A * dom * trace) : dom := snd (fst r).
Definition trace_of {A} (r : outcome A * dom * trace) : trace := snd r.

(* ------------------------------------------------------------------ *)
(** *** Platform calls *)

Definition window_showToast : M bool :=
  e <- ask ;; ret (has_showToast e).

Definition showToast (message : value) (kind : jsstring) : M unit :=
  log (EToast message kind).

Definition setTimeout_reload (delay_ms : N) : M unit :=
  log (EReload delay_ms).

Definition confirm (message : jsstring) : M bool :=
  e <- ask ;;
  let answer := native_confirm e message in
  log (EConfirm message answer) ;; ret answer.

Definition prompt (message default : jsstring) : M (option jsstring) :=
  e <- ask ;;
  let answer := native_prompt e message default in
  log (EPrompt message default answer) ;; ret answer.

Definition writeText (text : jsstring) : M unit :=
  e <- ask ;;
  log (EWriteText text) ;; of_outcome (clipboard_writeText e text).

Definition execCommand (command : jsstring) : M bool :=
  e <- ask ;;
  log (EExecCommand command) ;; of_outcome (document_execCommand e command).

Definition fetch (r : request) : M response :=
  e <- ask ;;
  log (EFetch r) ;; of_outcome (net_fetch e r).

Definition response_json (r : response) : M value := of_outcome r.

Definition prop (v : value) (k : string) : M value :=
  of_outcome (get_prop v (lit k)).

(** [document.createElement(tag)]: a fresh, detached node. *)
Definition createElement (tag : jsstring) : M node :=
  fun _ d =>
    (Ok {| node_id := next_id d; tagName := tag;
           node_value := []; node_style := [] |},
     {| body_children := body_children d; next_id := S (next_id d) |},
     []).

Definition is_node (id : nat) (n : node) : bool := Nat.eqb (node_id n) id.

Fixpoint remove_node (id : nat) (l : list node) : list node :=
  match l with
  | [] => []
  | n :: rest => if is_node id n then rest else n :: remove_node id rest
  end.

(** [document.body.appendChild(n)]: [n] becomes the last child (moved there
    if it already was a child). *)
Definition appendChild (n : node) : M unit :=
  fun _ d =>
    (Ok tt,
     {| body_children := remove_node (node_id n) (body_children d) ++ [n];
        next_id := next_id d |},
     []).

(** [document.body.removeChild(n)]: NotFoundError unless [n] is a child. *)
Definition removeChild (n : node) : M unit :=
  fun _ d =>
    if existsb (is_node (node_id n)) (body_children d)
    then (Ok tt,
          {| body_children := remove_node (node_id n) (body_children d);
             next_id := next_id d |},
          [])
    else (Throws, d, []).

Definition select (n : node) : M unit := log ESelect.

(** [window.showConfirmModal] is defined *)
Definition window_showConfirmModal : M bool :=
  e <- ask ;;
  ret (match confirm_modal e with Some _ => true | None => false end).

Record modal_options : Type := {
  title : jsstring;
  message : jsstring;
  confirmText : jsstring;
  onConfirm : M unit
}.

(** Modelled from the spec: [window.showConfirmModal], an optional global
    the script consumes and does not define.  It shows the dialog and calls
    [onConfirm] when, and only when, the user confirms in it. *)
Definition showConfirmModal (o : modal_options) : M unit :=
  e <- ask ;;
  log (EModalShown (title o) (message o) (confirmText o)) ;;
  match confirm_modal e with
  | Some true => log EModalConfirmed ;; onConfirm o
  | _ => ret tt
  end.

(* ================================================================== *)
(** ** The script *)

Definition str (s : string) : value := VStr (lit s).

(** [getAttribute(..) || fallback]: [null] and the empty string are falsy. *)
Definition attr_or (o : option jsstring) (fallback : jsstring) : jsstring :=
  match o with
  | Some s => if JsString.is_empty s then fallback else s
  | None => fallback
  end.

(** [o === 'literal'] for the result of [getAttribute] *)
Definition attr_is (o : option jsstring) (s : jsstring) : bool :=
  match o with
  | Some x => JsString.eqb x s
  | None => false
  end.

Definition setButtonLoading : M unit := log ESetButtonLoading.
Definition clearButtonLoading : M unit := log EClearButtonLoading.

(** The two copies of the module define [copyToClipboard] and [postJson]
    with the same text. *)
Definition copyToClipboard (text : jsstring) : M bool :=
  try
    (writeText text ;;
     ret true)
  catch
    (textarea0 <- createElement (lit "textarea") ;;
     let textarea :=
       {| node_id := node_id textarea0; tagName := tagName textarea0;
          node_value := text;
          node_style := [(lit "position", lit "fixed");
                         (lit "opacity", lit "0")] |} in
     appendChild textarea ;;
     select textarea ;;
     try
       (execCommand (lit "copy") ;;
        removeChild textarea ;;
        ret true)
     catch
       (removeChild textarea ;;
        ret false)).

Definition postJson (url : jsstring) (payload : value) : M value :=
  r <- fetch {| req_url := url;
                req_method := lit "POST";
                req_headers := [(lit "Content-Type", lit "application/json")];
                req_body_of := JsonBody payload |} ;;
  response_json r.

(** [fetch(url, { method: 'POST', body: formData })] *)
Definition postForm (url : jsstring) (entries : list (jsstring * form_value))
  : M response :=
  fetch {| req_url := url;
           req_method := lit "POST";
           req_headers := [];
           req_body_of := FormBody entries |}.

(** [if (window.showToast) { window.showToast(text, kind); }] *)
Definition toast (text kind : string) : M unit :=
  b <- window_showToast ;;
  when b (showToast (str text) (lit kind)).

(** [if (window.showToast) { window.showToast(result.message || text, 'error'); }] *)
Definition toast_message_or (result : value) (text : string) : M unit :=
  b <- window_showToast ;;
  when b (m <- prop result "message" ;;
          showToast (js_or m (str text)) (lit "error")).

(** The create-entry form: the value of its [clipboard_data] control (if it
    has one), whether it has a submit button, and its [FormData]. *)
Record form : Type := {
  clipboard_data : option jsstring;
  submit_button : bool;
  form_entries : list (jsstring * form_value)
}.

(** Each [handleX] below is the listener that the function of that name
    binds to one button or form. *)

Definition itemName (name : jsstring) : jsstring :=
  if 30 <? List.length name
  then JsString.substring name 0 30 ++ lit "..."
  else name.

Definition doDelete (itemId : option jsstring) : M unit :=
  try
    (result <- postJson (lit "/clipboard/" ++ JsString.of_attr itemId
                           ++ lit "/delete") (VObj []) ;;
     status <- prop result "status" ;;
     if strict_eq_str status (lit "success") then
       toast "Deleted!" "success" ;;
       setTimeout_reload 1000
     else
       toast_message_or result "Failed to delete")
  catch
    (toast "Failed to delete" "error").

(** The double quote, U+0022. *)
Definition dquote : jsstring := [34%N].

Definition delete_modal_message (name : jsstring) : jsstring :=
  lit "Are you sure you want to delete " ++ dquote ++ name ++ dquote
    ++ lit "? This action cannot be undone.".

Definition delete_confirm_message (name : jsstring) : jsstring :=
  lit "Delete " ++ dquote ++ name ++ dquote ++ lit "?".

Definition handleDeleteButtons (button : element) : M unit :=
  let itemId := getAttribute button (lit "data-id") in
  let name := attr_or (getAttribute button (lit "data-name"))
                      (lit "this item") in
  let itemName := itemName name in
  has_modal <- window_showConfirmModal ;;
  if has_modal then
    showConfirmModal
      {| title := lit "Delete Clipboard Item";
         message := delete_modal_message itemName;
         confirmText := lit "Delete";
         onConfirm := doDelete itemId |}
  else
    yes <- confirm (delete_confirm_message itemName) ;;
    when yes (doDelete itemId).

Definition handleFavoriteToggles (button : element) : M unit :=
  let itemId := getAttribute button (lit "data-id") in
  let current := attr_is (getAttribute button (lit "data-favorite"))
                         (lit "true") in
  let target := negb current in
  try
    (result <- postJson (lit "/clipboard/" ++ JsString.of_attr itemId
                           ++ lit "/favorite")
                        (VObj [(lit "favorite", VBool target)]) ;;
     status <- prop result "status" ;;
     if strict_eq_str status (lit "success") then
       (b <- window_showToast ;;
        when b (favorite <- prop result "favorite" ;;
                showToast (if truthy favorite
                           then str "Added to favorites"
                           else str "Removed from favorites")
                          (lit "success"))) ;;
       setTimeout_reload 500
     else
       toast_message_or result "Failed to update favorite")
  catch
    (toast "Failed to update favorite" "error").

Definition handleRetentionToggles (button : element) : M unit :=
  let itemId := getAttribute button (lit "data-id") in
  let current := attr_is (getAttribute button (lit "data-keep"))
                         (lit "true") in
  let target := negb current in
  try
    (result <- postJson (lit "/clipboard/" ++ JsString.of_attr itemId
                           ++ lit "/retention")
                        (VObj [(lit "keep", VBool target)]) ;;
     status <- prop result "status" ;;
     if strict_eq_str status (lit "success") then
       (b <- window_showToast ;;
        when b (kept <- prop result "kept" ;;
                showToast (if truthy kept
                           then str "Kept indefinitely"
                           else str "Retention restored")
                          (lit "success"))) ;;
       setTimeout_reload 500
     else
       toast_message_or result "Failed to update retention")
  catch
    (toast "Failed to update retention" "error").

(** [!name || !name.trim()] for [name] the result of [formData.get]:
    [null] and the empty string are falsy; a [File] is truthy and has no
    [trim] method, so calling it is a TypeError. *)
Definition name_is_blank (name : option form_value) : outcome bool :=
  match name with
  | None => Ok true
  | Some (FText n) =>
      Ok (JsString.is_empty n || JsString.is_empty (JsString.trim n))
  | Some (FFile _) => Throws
  end.

(** [formData] is the [FormData] of the folder form.  The test of the name
    stands before the [try], so what it throws is not caught. *)
Definition handleFolderCreate (formData : list (jsstring * form_value))
  : M unit :=
  log EPreventDefault ;;
  let name := form_get formData (lit "name") in
  blank <- of_outcome (name_is_blank name) ;;
  if blank
  then toast "Folder name is required" "error"
  else
    try
      (response <- postForm (lit "/clipboard/folders") formData ;;
       result <- response_json response ;;
       status <- prop result "status" ;;
       if strict_eq_str status (lit "success") then
         toast "Folder created" "success" ;;
         setTimeout_reload 500
       else
         toast_message_or result "Failed to create folder")
    catch
      (toast "Failed to create folder" "error").

Definition folder_delete_message : jsstring :=
  lit "Delete this folder? It must be empty before removal.".

Definition doDeleteFolder (folderId : option jsstring) : M unit :=
  try
    (result <- postJson (lit "/clipboard/folders/" ++ JsString.of_attr folderId
                           ++ lit "/delete") (VObj []) ;;
     status <- prop result "status" ;;
     if strict_eq_str status (lit "success") then
       toast "Folder deleted" "success" ;;
       setTimeout_reload 500
     else
       toast_message_or result "Failed to delete folder")
  catch
    (toast "Failed to delete folder" "error").

Definition handleFolderDelete (button : element) : M unit :=
  let folderId := getAttribute button (lit "data-id") in
  has_modal <- window_showConfirmModal ;;
  if has_modal then
    showConfirmModal
      {| title := lit "Delete Folder";
         message := folder_delete_message;
         confirmText := lit "Delete";
         onConfirm := doDeleteFolder folderId |}
  else
    yes <- confirm folder_delete_message ;;
    when yes (doDeleteFolder folderId).

(** [newName && newName.trim()] is truthy. *)
Definition nonblank (newName : option jsstring) : bool :=
  match newName with
  | Some n => negb (JsString.is_empty n)
              && negb (JsString.is_empty (JsString.trim n))
  | None => false
  end.

Definition rename_url (folderId : option jsstring) : jsstring :=
  lit "/clipboard/folders/" ++ JsString.of_attr folderId ++ lit "/rename".

(** *** First copy of the module (lines 1-363) *)
Module V1.

Definition handleClipboardForm (clipboardForm : form) : M unit :=
  log EPreventDefault ;;
  let text := match clipboard_data clipboardForm with
              | Some v => JsString.trim v
              | None => []
              end in
  if JsString.is_empty text then
    toast "Please enter some text" "error"
  else
    let formData := form_entries clipboardForm in
    try
      (response <- postForm (lit "/clipboard") formData ;;
       result <- response_json response ;;
       status <- prop result "status" ;;
       if strict_eq_str status (lit "success") then
         toast "Saved to clipboard!" "success" ;;
         setTimeout_reload 1000
       else
         toast_message_or result "Failed to save")
    catch
      (toast "Failed to save" "error").

(** The rename button opens a native prompt. *)
Definition handleFolderRename (button : element) : M unit :=
  let folderId := getAttribute button (lit "data-id") in
  let currentName := attr_or (getAttribute button (lit "data-name")) [] in
  newName <- prompt (lit "Rename folder") currentName ;;
  if negb (nonblank newName) then ret tt
  else
    let newName := match newName with Some n => n | None => [] end in
    try
      (result <- postJson (rename_url folderId)
                          (VObj [(lit "name", VStr (JsString.trim newName))]) ;;
       status <- prop result "status" ;;
       if strict_eq_str status (lit "success") then
         toast "Folder renamed" "success" ;;
         setTimeout_reload 500
       else
         toast_message_or result "Failed to rename folder")
    catch
      (toast "Failed to rename folder" "error").

End V1.

(** *** Second copy of the module (lines 365-816) *)
Module V2.

Definition handleClipboardForm (clipboardForm : form) : M unit :=
  log EPreventDefault ;;
  let submitBtn := submit_button clipboardForm in
  let text := match clipboard_data clipboardForm with
              | Some v => JsString.trim v
              | None => []
              end in
  if JsString.is_empty text then
    toast "Please enter some text" "error" ;;
    (* textArea?.focus() *)
    when (match clipboard_data clipboardForm with
          | Some _ => true | None => false end) (log EFocus)
  else
    let formData := form_entries clipboardForm in
    when submitBtn setButtonLoading ;;
    try
      (response <- postForm (lit "/clipboard") formData ;;
       result <- response_json response ;;
       status <- prop result "status" ;;
       if strict_eq_str status (lit "success") then
         toast "Saved to clipboard!" "success" ;;
         setTimeout_reload 800
       else
         when submitBtn clearButtonLoading ;;
         toast_message_or result "Failed to save")
    catch
      (when submitBtn clearButtonLoading ;;
       toast "Failed to save" "error").

Definition submitFolderRename (folderId : option jsstring)
           (newName : jsstring) : M unit :=
  try
    (result <- postJson (rename_url folderId)
                        (VObj [(lit "name", VStr newName)]) ;;
     status <- prop result "status" ;;
     if strict_eq_str status (lit "success") then
       toast "Folder renamed" "success" ;;
       setTimeout_reload 500
     else
       toast_message_or result "Failed to rename folder")
  catch
    (toast "Failed to rename folder" "error").

(** [currentName.replace(..)] with every double quote (U+0022) turned
    into the character reference [&quot;] *)
Definition escape_quot (s : jsstring) : jsstring :=
  flat_map (fun c => if (c =? 34)%N then lit "&quot;" else [c]) s.

(** The rename button: [has_link] says whether the button sits in a
    [.folder-row] that holds a [.folder-link].  If so the link is replaced
    by the inline editor, whose controls run [saveRename] and
    [cancelRename] below; if not, the native prompt is used. *)
Definition handleFolderRename (button : element) (has_link : bool)
  : M unit :=
  let folderId := getAttribute button (lit "data-id") in
  let currentName := attr_or (getAttribute button (lit "data-name")) [] in
  if negb has_link then
    newName <- prompt (lit "Rename folder") currentName ;;
    when (nonblank newName)
         (submitFolderRename folderId
            (JsString.trim (match newName with Some n => n | None => [] end)))
  else
    log (EInlineEditOpened (escape_quot currentName)) ;;
    log EFocus ;;
    log ESelect.

Definition cancelRename : M unit := log ELinkRestored.

(** [saveRename] inside the listener above; [button] is the rename button
    whose closure it lives in and [input_value] the text in the inline
    input when Enter or the save button is pressed. *)
Definition saveRename (button : element) (input_value : jsstring)
  : M unit :=
  let folderId := getAttribute button (lit "data-id") in
  let currentName := attr_or (getAttribute button (lit "data-name")) [] in
  let newName := JsString.trim input_value in
  if JsString.is_empty newName || JsString.eqb newName currentName then
    cancelRename
  else
    setButtonLoading ;;
    try
      (result <- postJson (rename_url folderId)
                          (VObj [(lit "name", VStr newName)]) ;;
       status <- prop result "status" ;;
       if strict_eq_str status (lit "success") then
         toast "Folder renamed" "success" ;;
         setTimeout_reload 500
       else
         clearButtonLoading ;;
         toast_message_or result "Failed to rename folder")
    catch
      (clearButtonLoading ;;
       toast "Failed to rename folder" "error").

End V2.

(* ================================================================== *)
(** ** Reading a trace *)

Definition fetches (t : trace) : list request :=
  flat_map (fun ev => match ev with EFetch r => [r] | _ => [] end) t.

Definition toasts (t : trace) : list (value * jsstring) :=
  flat_map (fun ev => match ev with EToast m k => [(m, k)] | _ => [] end) t.

Definition reloads (t : trace) : list N :=
  flat_map (fun ev => match ev with EReload ms => [ms] | _ => [] end) t.

(** The text of every confirmation dialog shown, modal or native. *)
Definition confirmation_messages (t : trace) : list jsstring :=
  flat_map (fun ev => match ev with
                      | EModalShown _ m _ => [m]
                      | EConfirm m _ => [m]
                      | _ => []
                      end) t.

(** No request is sent before the user has confirmed, in the modal or in
    the native dialog; [seen] says whether that has already happened. *)
Fixpoint confirmed_before_fetch (seen : bool) (t : trace) : bool :=
  match t with
  | [] => true
  | EModalConfirmed :: t' => confirmed_before_fetch true t'
  | EConfirm _ true :: t' => confirmed_before_fetch true t'
  | EFetch _ :: t' => seen && confirmed_before_fetch seen t'
  | _ :: t' => confirmed_before_fetch seen t'
  end.

(** The user's decision at the confirmation step of a delete: taken in the
    custom modal when there is one, in the native dialog otherwise. *)
Definition user_confirms (e : env) (native_message : jsstring) : bool :=
  match confirm_modal e with
  | Some b => b
  | None => native_confirm e native_message
  end.

(** Node identifiers in the page were all handed out by [createElement]. *)
Definition wf_dom (d : dom) : Prop :=
  Forall (fun n => node_id n < next_id d) (body_children d).

Definition json_post (url : jsstring) (payload : value) : request :=
  {| req_url := url;
     req_method := lit "POST";
     req_headers := [(lit "Content-Type", lit "application/json")];
     req_body_of := JsonBody payload |}.

(** The listeners that talk to the server, with the generic text each one
    falls back on when the server reports a failure. *)
Inductive net_handler : Type :=
| ClipboardForm1 (f : form)
| ClipboardForm2 (f : form)
| DeleteItem (button : element)
| FavoriteToggle (button : element)
| RetentionToggle (button : element)
| FolderCreate (formData : list (jsstring * form_value))
| FolderRename1 (button : element)
| FolderRename2 (button : element) (has_link : bool)
| SaveRename2 (button : element) (input_value : jsstring)
| FolderDelete (button : element).

Definition run_handler (h : net_handler) : M unit :=
  match h with
  | ClipboardForm1 f => V1.handleClipboardForm f
  | ClipboardForm2 f => V2.handleClipboardForm f
  | DeleteItem b => handleDeleteButtons b
  | FavoriteToggle b => handleFavoriteToggles b
  | RetentionToggle b => handleRetentionToggles b
  | FolderCreate fd => handleFolderCreate fd
  | FolderRename1 b => V1.handleFolderRename b
  | FolderRename2 b has_link => V2.handleFolderRename b has_link
  | SaveRename2 b v => V2.saveRename b v
  | FolderDelete b => handleFolderDelete b
  end.

Definition fallback_message (h : net_handler) : string :=
  match h with
  | ClipboardForm1 _ | ClipboardForm2 _ => "Failed to save"
  | DeleteItem _ => "Failed to delete"
  | FavoriteToggle _ => "Failed to update favorite"
  | RetentionToggle _ => "Failed to update retention"
  | FolderCreate _ => "Failed to create folder"
  | FolderRename1 _ | FolderRename2 _ _ | SaveRename2 _ _ =>
      "Failed to rename folder"
  | FolderDelete _ => "Failed to delete folder"
  end.

(** The [message] of a parsed response ([undefined] when it has none). *)
Definition message_of (r : value) : value :=
  match get_prop r (lit "message") with
  | Ok m => m
  | Throws => VUndefined
  end.

(** The textarea that the fallback path of [copyToClipboard] appends. *)
Definition fallback_textarea (text : jsstring) (d : dom) : node :=
  {| node_id := next_id d; tagName := lit "textarea"; node_value := text;
     node_style := [(lit "position", lit "fixed"); (lit "opacity", lit "0")] |}.

(** *** Sample pages and environments *)

Definition empty_dom : dom := {| body_children := []; next_id := 0 |}.

Definition sample_dom : dom :=
  {| body_children :=
       [ {| node_id := 0; tagName := lit "main";
            node_value := []; node_style := [] |};
         {| node_id := 2; tagName := lit "footer";
            node_value := []; node_style := [] |} ];
     next_id := 3 |}.

(** A browser that answers every request with [r]. *)
Definition env_with (toast_defined : bool) (modal : option bool)
           (confirm_answer : bool) (prompt_answer : option jsstring)
           (write : outcome unit) (exec : outcome bool) (r : value) : env :=
  {| has_showToast := toast_defined;
     confirm_modal := modal;
     native_confirm := fun _ => confirm_answer;
     native_prompt := fun _ _ => prompt_answer;
     clipboard_writeText := fun _ => write;
     document_execCommand := fun _ => exec;
     net_fetch := fun _ => Ok (Ok r) |}.

Definition button_with (id name : string) : element :=
  {| attributes := [(lit "data-id", lit id); (lit "data-name", lit name)] |}.

(* ================================================================== *)
(** ** The rest of the script: copy and share buttons *)

(** What a button looks like: its [innerHTML] and its [classList], a list
    of distinct tokens in order. *)
Record button_look : Type := {
  innerHTML : jsstring;
  classList : list jsstring
}.

Definition classList_contains (c : jsstring) (l : list jsstring) : bool :=
  existsb (JsString.eqb c) l.

(** [classList.add(c)]: appended unless already there. *)
Definition classList_add (c : jsstring) (l : list jsstring) : list jsstring :=
  if classList_contains c l then l else l ++ [c].

(** [classList.remove(c)] *)
Definition classList_remove (c : jsstring) (l : list jsstring)
  : list jsstring :=
  filter (fun x => negb (JsString.eqb c x)) l.

(** A callback handed to [setTimeout(callback, delay)]; the callbacks of
    the script only touch the button they were created for. *)
Record timer : Type := {
  timer_delay : N;
  timer_callback : button_look -> button_look
}.

(** Pending timers of equal delay fire in the order they were set. *)
Definition fire (timers : list timer) (b : button_look) : button_look :=
  fold_left (fun look t => timer_callback t look) timers b.

(** The check mark put on a button after a successful copy:
    an [i] element of class [fas fa-check] with [aria-hidden] true. *)
Definition check_icon : jsstring :=
  lit "<i class=" ++ dquote ++ lit "fas fa-check" ++ dquote
    ++ lit " aria-hidden=" ++ dquote ++ lit "true" ++ dquote ++ lit "></i>".

(** [copyToClipboard(v)] for [v] the result of [getAttribute]: a missing
    attribute is [null], which [writeText] receives as the string ['null']
    and which the [value] of a textarea turns into the empty string. *)
Definition copyToClipboard_attr (content : option jsstring) : M bool :=
  try
    (writeText (JsString.of_attr content) ;;
     ret true)
  catch
    (textarea0 <- createElement (lit "textarea") ;;
     let textarea :=
       {| node_id := node_id textarea0; tagName := tagName textarea0;
          node_value := match content with Some s => s | None => [] end;
          node_style := [(lit "position", lit "fixed");
                         (lit "opacity", lit "0")] |} in
     appendChild textarea ;;
     select textarea ;;
     try
       (execCommand (lit "copy") ;;
        removeChild textarea ;;
        ret true)
     catch
       (removeChild textarea ;;
        ret false)).

(** [window.showToast(success ? good : bad, success ? 'success' : 'error')]
    behind its guard. *)
Definition toast_outcome (success : bool) (good bad : string) : M unit :=
  b <- window_showToast ;;
  when b (showToast (if success then str good else str bad)
                    (if success then lit "success" else lit "error")).

(** First copy of the module (lines 113-148). *)
Module Buttons1.

Definition handleCopyButtons (button : element) (look : button_look)
  : M (button_look * list timer) :=
  let content := getAttribute button (lit "data-content") in
  success <- copyToClipboard_attr content ;;
  toast_outcome success "Copied to clipboard!" "Failed to copy" ;;
  if success then
    let originalHtml := innerHTML look in
    ret ({| innerHTML := check_icon;
            classList :=
              classList_remove (lit "btn-primary")
                (classList_add (lit "btn-success") (classList look)) |},
         [{| timer_delay := 2000;
             timer_callback := fun b =>
               {| innerHTML := originalHtml;
                  classList :=
                    classList_add (lit "btn-primary")
                      (classList_remove (lit "btn-success") (classList b)) |}
          |}])
  else ret (look, []).

Definition handleShareButtons (button : element) (look : button_look)
  : M (button_look * list timer) :=
  let url := getAttribute button (lit "data-url") in
  success <- copyToClipboard_attr url ;;
  toast_outcome success "Link copied!" "Failed to copy link" ;;
  ret (look, []).

End Buttons1.

(** Second copy of the module (lines 397-405 and 486-520). *)
Module Buttons2.

Definition showButtonSuccess (look : button_look) (originalHtml : jsstring)
           (duration : N) : button_look * list timer :=
  ({| innerHTML := check_icon;
      classList := classList_add (lit "btn-copy-success") (classList look) |},
   [{| timer_delay := duration;
       timer_callback := fun b =>
         {| innerHTML := originalHtml;
            classList :=
              classList_remove (lit "btn-copy-success") (classList b) |} |}]).

Definition handleCopyButtons (button : element) (look : button_look)
  : M (button_look * list timer) :=
  let content := getAttribute button (lit "data-content") in
  let originalHtml := innerHTML look in
  success <- copyToClipboard_attr content ;;
  toast_outcome success "Copied to clipboard!" "Failed to copy" ;;
  if success then ret (showButtonSuccess look originalHtml 2000)
  else ret (look, []).

Definition handleShareButtons (button : element) (look : button_look)
  : M (button_look * list timer) :=
  let url := getAttribute button (lit "data-url") in
  let originalHtml := innerHTML look in
  success <- copyToClipboard_attr url ;;
  toast_outcome success "Link copied!" "Failed to copy link" ;;
  if success then ret (showButtonSuccess look originalHtml 2000)
  else ret (look, []).

End Buttons2.

(** *** Further readings of a run *)

(** Whether [copyToClipboard_attr content] reports success in [e]. *)
Definition copy_reported (e : env) (content : option jsstring) : bool :=
  match clipboard_writeText e (JsString.of_attr content) with
  | Ok _ => true
  | Throws =>
      match document_execCommand e (lit "copy") with
      | Ok _ => true
      | Throws => false
      end
  end.

(** Whether the button of the listener is left in its loading state. *)
Definition loading_after (t : trace) : bool :=
  fold_left (fun busy ev => match ev with
                            | ESetButtonLoading => true
                            | EClearButtonLoading => false
                            | _ => busy
                            end) t false.

(** A response the listeners cannot read: the request rejected, the body
    was not JSON, or it parsed to [null]. *)
Definition unreadable (o : outcome response) : bool :=
  match o with
  | Throws | Ok Throws | Ok (Ok VNull) | Ok (Ok VUndefined) => true
  | _ => false
  end.

(** The delay of the reload each listener schedules on success. *)
Definition reload_delay (h : net_handler) : N :=
  match h with
  | ClipboardForm1 _ | DeleteItem _ => 1000
  | ClipboardForm2 _ => 800
  | _ => 500
  end.

(** A request to the rename endpoint of the folder whose name is not empty
    and has no white space at either end. *)
Definition trimmed_name_request (folderId : option jsstring) (q : request)
  : Prop :=
  exists n, q = json_post (rename_url folderId) (VObj [(lit "name", VStr n)])
            /\ n <> [] /\ JsString.trim n = n.

(** [fetch(url, { method: 'POST', body: formData })] as a request. *)
Definition form_post (url : jsstring) (entries : list (jsstring * form_value))
  : request :=
  {| req_url := url; req_method := lit "POST"; req_headers := [];
     req_body_of := FormBody entries |}.

(** Two clicks on one button, the second after the listener of the first
    has finished and before any timer has fired. *)
Definition two_clicks
           (listener : element -> button_look -> M (button_look * list timer))
           (button : element) (look : button_look)
  : M (button_look * list timer) :=
  first <- listener button look ;;
  second <- listener button (fst first) ;;
  ret (fst second, snd first ++ snd second).

(** What a run of a copy or share listener must look like when
    [copyToClipboard] reported [ok]: no request, the toast for [ok] if
    toasts are available, a normal return, and an untouched button without
    timers when [ok] is false. *)
Definition reports_outcome (e : env) (look : button_look) (ok : bool)
           (good bad : string)
           (run : outcome (button_look * list timer) * dom * trace) : Prop :=
  fetches (trace_of run) = [] /\
  toasts (trace_of run) =
    (if has_showToast e
     then [(if ok then str good else str bad,
            if ok then lit "success" else lit "error")]
     else []) /\
  if ok then exists after, result_of run = Ok after
  else result_of run = Ok (look, []).

Definition sample_look : button_look :=
  {| innerHTML := lit "Copy"; classList := [lit "btn"; lit "btn-primary"] |}.

(** The value a request carries for one field of its form data. *)
Definition posted_value (q : request) (field : jsstring)
  : option form_value :=
  match req_body_of q with
  | FormBody entries => form_get entries field
  | JsonBody _ => None
  end.


(* ================================================================== *)
(** * Properties *)

(** ** Concrete runs *)

Section Runs.

Let saved := VObj [(lit "status", str "success")].
Let refused := VObj [(lit "status", str "error");
                     (lit "message", str "Name already taken")].
Let browser (r : value) : env :=
  env_with true (Some false) true (Some (lit " Notes ")) (Ok tt) (Ok true) r.
Let entry : form :=
  {| clipboard_data := Some (lit " hello ");
     submit_button := true;
     form_entries := [(lit "clipboard_data", FText (lit " hello "))] |}.
Let entry_post : request :=
  {| req_url := lit "/clipboard"; req_method := lit "POST";
     req_headers := [];
     req_body_of := FormBody [(lit "clipboard_data", FText (lit " hello "))] |}.

Example copyToClipboard_primary :
  copyToClipboard (lit "hello") (browser saved) sample_dom
  = (Ok true, sample_dom, [EWriteText (lit "hello")]).
Proof. reflexivity. Qed.

Example handleClipboardForm_v1_saved :
  trace_of (V1.handleClipboardForm entry (browser saved) empty_dom)
  = [EPreventDefault; EFetch entry_post;
     EToast (str "Saved to clipboard!") (lit "success"); EReload 1000].
Proof. reflexivity. Qed.

Example handleClipboardForm_v2_refused :
  trace_of (V2.handleClipboardForm entry (browser refused) empty_dom)
  = [EPreventDefault; ESetButtonLoading; EFetch entry_post;
     EClearButtonLoading; EToast (str "Name already taken") (lit "error")].
Proof. reflexivity. Qed.

Example handleRetentionToggles_kept :
  let button := {| attributes := [(lit "data-id", lit "9");
                                  (lit "data-keep", lit "false")] |} in
  let r := VObj [(lit "status", str "success"); (lit "kept", VBool true)] in
  trace_of (handleRetentionToggles button (browser r) empty_dom)
  = [EFetch (json_post (lit "/clipboard/9/retention")
                       (VObj [(lit "keep", VBool true)]));
     EToast (str "Kept indefinitely") (lit "success"); EReload 500].
Proof. reflexivity. Qed.

Example handleFolderCreate_blank :
  trace_of (handleFolderCreate [(lit "name", FText (lit "  "))] (browser saved)
                               empty_dom)
  = [EPreventDefault; EToast (str "Folder name is required") (lit "error")].
Proof. reflexivity. Qed.

Example handleFolderCreate_created :
  trace_of (handleFolderCreate [(lit "name", FText (lit "Work"))] (browser saved)
                               empty_dom)
  = [EPreventDefault;
     EFetch {| req_url := lit "/clipboard/folders"; req_method := lit "POST";
               req_headers := [];
               req_body_of := FormBody [(lit "name", FText (lit "Work"))] |};
     EToast (str "Folder created") (lit "success"); EReload 500].
Proof. reflexivity. Qed.

Example handleFolderDelete_declined :
  trace_of (handleFolderDelete (button_with "4" "Work") (browser saved)
                               empty_dom)
  = [EModalShown (lit "Delete Folder") folder_delete_message (lit "Delete")].
Proof. reflexivity. Qed.

Example handleFolderRename_v1_trims :
  trace_of (V1.handleFolderRename (button_with "4" "Work") (browser refused)
                                  empty_dom)
  = [EPrompt (lit "Rename folder") (lit "Work") (Some (lit " Notes "));
     EFetch (json_post (lit "/clipboard/folders/4/rename")
                       (VObj [(lit "name", str "Notes")]));
     EToast (str "Name already taken") (lit "error")].
Proof. reflexivity. Qed.

Example handleFolderRename_v2_inline :
  trace_of (V2.handleFolderRename
              {| attributes := [(lit "data-id", lit "4");
                                (lit "data-name", [65; 34; 66]%N)] |}
              true (browser saved) empty_dom)
  = [EInlineEditOpened (lit "A&quot;B"); EFocus; ESelect].
Proof. reflexivity. Qed.

Example saveRename_renamed :
  trace_of (V2.saveRename (button_with "4" "Work") (lit " Notes ")
                          (browser saved) empty_dom)
  = [ESetButtonLoading;
     EFetch (json_post (lit "/clipboard/folders/4/rename")
                       (VObj [(lit "name", str "Notes")]));
     EToast (str "Folder renamed") (lit "success"); EReload 500].
Proof. reflexivity. Qed.

End Runs.

(** ** Strings *)

Section StringFacts.

Lemma eqb_refl (s : jsstring) : JsString.eqb s s = true.
Proof.
  induction s as [|c s IH]; simpl; [reflexivity|].
  now rewrite N.eqb_refl, IH.
Qed.

Lemma eqb_eq (a b : jsstring) : JsString.eqb a b = true <-> a = b.
Proof.
  split.
  - revert b; induction a as [|x a IH]; destruct b as [|y b]; simpl;
      intros H; try discriminate; [reflexivity|].
    apply andb_true_iff in H as [Hx Hab].
    apply N.eqb_eq in Hx. f_equal; auto.
  - intros ->. apply eqb_refl.
Qed.

Lemma trimStart_blank (s : jsstring) :
  JsString.trimStart s = [] <-> forallb JsString.is_whitespace s = true.
Proof.
  induction s as [|c s IH]; simpl; [tauto|].
  destruct (JsString.is_whitespace c); simpl; [exact IH|].
  split; discriminate.
Qed.

(** Trimming leaves nothing exactly when every code unit is white space. *)
Lemma trim_blank (s : jsstring) :
  JsString.trim s = [] <-> forallb JsString.is_whitespace s = true.
Proof.
  unfold JsString.trim, JsString.trimEnd. split.
  - intros H.
    destruct (JsString.trimStart s) as [|c r] eqn:E.
    + now apply trimStart_blank.
    + exfalso.
      assert (Hne : JsString.trimStart s <> []) by (rewrite E; discriminate).
      (* the first unit kept by [trimStart] is not white space, and it
         survives the trim of the other end *)
      assert (Hc : JsString.is_whitespace c = false).
      { clear H Hne. induction s as [|x s IH]; simpl in E; [discriminate|].
        destruct (JsString.is_whitespace x) eqn:Hx; [auto|].
        now injection E as -> _. }
      apply (f_equal (@rev N)) in H. rewrite rev_involutive in H.
      simpl in H. apply trimStart_blank in H.
      rewrite forallb_app in H. apply andb_true_iff in H as [_ H].
      simpl in H. rewrite Hc in H. discriminate.
  - intros H. apply trimStart_blank in H. rewrite H. reflexivity.
Qed.

Lemma substring_prefix (s : jsstring) (n : nat) :
  JsString.substring s 0 n = firstn n s.
Proof.
  unfold JsString.substring. simpl.
  rewrite Nat.sub_0_r.
  destruct (Nat.le_gt_cases n (List.length s)) as [Hle|Hgt].
  - now rewrite Nat.min_l by lia.
  - rewrite Nat.min_r by lia.
    rewrite !firstn_all2 by lia. reflexivity.
Qed.

End StringFacts.

(** ** The children of [document.body] *)

Section DomFacts.

Lemma remove_node_fresh (id : nat) (l : list node) :
  Forall (fun n => node_id n < id) l -> remove_node id l = l.
Proof.
  induction 1 as [|n l Hn _ IH]; simpl; [reflexivity|].
  unfold is_node. destruct (Nat.eqb_spec (node_id n) id); [lia|].
  now rewrite IH.
Qed.

Lemma remove_node_last (n : node) (l : list node) :
  Forall (fun m => node_id m < node_id n) l ->
  remove_node (node_id n) (l ++ [n]) = l.
Proof.
  induction 1 as [|m l Hm _ IH]; simpl.
  - unfold is_node. now rewrite Nat.eqb_refl.
  - unfold is_node at 1. destruct (Nat.eqb_spec (node_id m) (node_id n));
      [lia|]. now rewrite IH.
Qed.

Lemma existsb_last (n : node) (l : list node) :
  existsb (is_node (node_id n)) (l ++ [n]) = true.
Proof.
  rewrite existsb_app. simpl. unfold is_node at 2.
  rewrite Nat.eqb_refl. now rewrite orb_true_r.
Qed.

End DomFacts.

(** ** [copyToClipboard] *)

Ltac unfold_m :=
  unfold bind, try_catch, ret, ask, log, of_outcome, when,
    result_of, dom_of, trace_of in *.

(** The whole run of [copyToClipboard], by the answers of the platform. *)
Lemma copyToClipboard_run (text : jsstring) (e : env) (d : dom) :
  copyToClipboard text e d =
  match clipboard_writeText e text with
  | Ok _ => (Ok true, d, [EWriteText text])
  | Throws =>
      let d' := {| body_children :=
                     remove_node (next_id d)
                       (remove_node (next_id d) (body_children d)
                          ++ [fallback_textarea text d]);
                   next_id := S (next_id d) |} in
      let t := [EWriteText text; ESelect; EExecCommand (lit "copy")] in
      match document_execCommand e (lit "copy") with
      | Ok _ => (Ok true, d', t)
      | Throws => (Ok false, d', t)
      end
  end.
Proof.
  unfold copyToClipboard, writeText, createElement, appendChild, select,
    execCommand, removeChild.
  unfold_m. cbn -[JsString.lit].
  destruct (clipboard_writeText e text) as [[]|]; [reflexivity|].
  cbn -[JsString.lit].
  change (next_id d) with (node_id (fallback_textarea text d)).
  fold (fallback_textarea text d).
  destruct (document_execCommand e (lit "copy")) as [b|];
    cbn -[JsString.lit];
    change {| node_id := next_id d; tagName := lit "textarea";
              node_value := text;
              node_style := [(lit "position", lit "fixed");
                             (lit "opacity", lit "0")] |}
      with (fallback_textarea text d);
    change (next_id d) with (node_id (fallback_textarea text d));
    rewrite existsb_last; reflexivity.
Qed.

(** [copyToClipboard] always returns, and it returns [false] only when the
    primary write rejects and the legacy command throws. *)
Lemma copyToClipboard_false_iff (text : jsstring) (e : env) (d : dom) :
  (exists b, result_of (copyToClipboard text e d) = Ok b) /\
  (result_of (copyToClipboard text e d) = Ok false <->
   clipboard_writeText e text = Throws /\
   document_execCommand e (lit "copy") = Throws).
Proof.
  rewrite copyToClipboard_run.
  destruct (clipboard_writeText e text) as [[]|];
    [|destruct (document_execCommand e (lit "copy")) as [b|]];
    unfold result_of; cbn -[JsString.lit];
    (split; [eexists; reflexivity|]);
    split; try (intros [? ?]); try intros ?; try discriminate; auto.
Qed.


(** C1, at the inputs where the code departs from it: the primary write
    rejects and the legacy copy command reports failure by returning
    [false] instead of throwing.  Neither path wrote to the clipboard, yet
    [copyToClipboard] answers [true], because the value of
    [document.execCommand('copy')] is dropped. *)
Theorem copyToClipboard_true_after_failed_fallback
  (text : jsstring) (e : env) (d : dom) :
  clipboard_writeText e text = Throws ->
  document_execCommand e (lit "copy") = Ok false ->
  result_of (copyToClipboard text e d) = Ok true.
Proof.
  intros Hw Hx. rewrite copyToClipboard_run, Hw, Hx. reflexivity.
Qed.

Lemma copyToClipboard_true_after_failed_fallback_witness :
  let e := env_with true None false None Throws (Ok false) VNull in
  clipboard_writeText e (lit "secret") = Throws /\
  document_execCommand e (lit "copy") = Ok false /\
  result_of (copyToClipboard (lit "secret") e sample_dom) = Ok true.
Proof.
  split; [reflexivity|]. split; [reflexivity|].
  apply copyToClipboard_true_after_failed_fallback; reflexivity.
Defined.

(** C9: on the fallback path the textarea that was appended to
    [document.body] is removed again before [copyToClipboard] returns,
    whether the legacy copy command returns or throws: the function
    returns, and the children of the body are the ones it started with. *)
Theorem copyToClipboard_fallback_restores_body
  (text : jsstring) (e : env) (d : dom) :
  wf_dom d ->
  clipboard_writeText e text = Throws ->
  body_children (dom_of (copyToClipboard text e d)) = body_children d /\
  result_of (copyToClipboard text e d) =
    Ok (match document_execCommand e (lit "copy") with
        | Ok _ => true
        | Throws => false
        end).
Proof.
  intros Hwf Hw. rewrite copyToClipboard_run, Hw.
  assert (Hbody :
    remove_node (next_id d)
      (remove_node (next_id d) (body_children d)
         ++ [fallback_textarea text d]) = body_children d).
  { rewrite (remove_node_fresh Hwf).
    exact (remove_node_last (fallback_textarea text d) Hwf). }
  destruct (document_execCommand e (lit "copy")) as [b|];
    unfold dom_of, result_of; cbn -[JsString.lit remove_node];
    now rewrite Hbody.
Qed.

Lemma copyToClipboard_fallback_restores_body_witness :
  let ok := env_with true None false None Throws (Ok true) VNull in
  let ko := env_with true None false None Throws Throws VNull in
  wf_dom sample_dom /\
  (body_children (dom_of (copyToClipboard (lit "hi") ok sample_dom))
     = body_children sample_dom /\
   result_of (copyToClipboard (lit "hi") ok sample_dom) = Ok true) /\
  (body_children (dom_of (copyToClipboard (lit "hi") ko sample_dom))
     = body_children sample_dom /\
   result_of (copyToClipboard (lit "hi") ko sample_dom) = Ok false).
Proof.
  assert (Hwf : wf_dom sample_dom).
  { unfold wf_dom, sample_dom; simpl. repeat constructor. }
  split; [exact Hwf|]. split.
  - apply (@copyToClipboard_fallback_restores_body (lit "hi")
             (env_with true None false None Throws (Ok true) VNull)
             sample_dom Hwf). reflexivity.
  - apply (@copyToClipboard_fallback_restores_body (lit "hi")
             (env_with true None false None Throws Throws VNull)
             sample_dom Hwf). reflexivity.
Defined.

(** ** Running a handler against every answer of the browser *)

Arguments JsString.lit : simpl never.
Arguments JsString.trim : simpl never.

Ltac unfold_script :=
  unfold handleDeleteButtons, handleFolderDelete,
    handleFavoriteToggles, handleRetentionToggles, handleFolderCreate,
    name_is_blank,
    V1.handleClipboardForm, V1.handleFolderRename,
    V2.handleClipboardForm, V2.handleFolderRename, V2.saveRename,
    V2.submitFolderRename, V2.cancelRename,
    doDelete, doDeleteFolder, showConfirmModal, window_showConfirmModal,
    postJson, postForm, fetch, response_json, prop, toast,
    toast_message_or, window_showToast, showToast, setTimeout_reload,
    confirm, prompt, setButtonLoading, clearButtonLoading in *.

Ltac ask_browser :=
  match goal with
  | |- context [confirm_modal ?e] =>
      destruct (confirm_modal e) as [[|]|] eqn:?
  | |- context [native_confirm ?e ?m] =>
      destruct (native_confirm e m) eqn:?
  | |- context [net_fetch ?e ?q] =>
      destruct (net_fetch e q) as [[?|]|] eqn:?
  | |- context [get_prop ?r ?k] =>
      destruct (get_prop r k) eqn:?
  | |- context [strict_eq_str ?s ?l] =>
      destruct (strict_eq_str s l) eqn:?
  | |- context [has_showToast ?e] =>
      destruct (has_showToast e) eqn:?
  end; cbn in *; try congruence.

Ltac run_script := unfold_script; unfold_m; cbn; repeat ask_browser.

(** ** Deleting *)

(** C4: an item or a folder is deleted only after the user has said yes.
    In the trace of either delete listener no request comes before an
    affirmative confirmation (the modal confirmed when there is one, the
    native dialog answered [true] otherwise); when the user confirms
    exactly one request goes out, to the delete endpoint of the item or
    folder, and when the user declines none goes out. *)
Theorem delete_only_after_confirmation (button : element) (e : env) (d : dom) :
  let name := itemName (attr_or (getAttribute button (lit "data-name"))
                                (lit "this item")) in
  let id := JsString.of_attr (getAttribute button (lit "data-id")) in
  let item := trace_of (handleDeleteButtons button e d) in
  let folder := trace_of (handleFolderDelete button e d) in
  (confirmed_before_fetch false item = true /\
   fetches item =
     if user_confirms e (delete_confirm_message name)
     then [json_post (lit "/clipboard/" ++ id ++ lit "/delete") (VObj [])]
     else []) /\
  (confirmed_before_fetch false folder = true /\
   fetches folder =
     if user_confirms e folder_delete_message
     then [json_post (lit "/clipboard/folders/" ++ id ++ lit "/delete")
                     (VObj [])]
     else []).
Proof.
  intros name id item folder; subst name id item folder.
  unfold user_confirms, json_post.
  split; run_script; auto.
Qed.

(** The one dialog a click on a delete button opens, and the name in it. *)
Lemma handleDeleteButtons_dialog (button : element) (e : env) (d : dom) :
  let name := itemName (attr_or (getAttribute button (lit "data-name"))
                                (lit "this item")) in
  confirmation_messages (trace_of (handleDeleteButtons button e d)) =
  [match confirm_modal e with
   | Some _ => delete_modal_message name
   | None => delete_confirm_message name
   end].
Proof.
  intros name; subst name. run_script; reflexivity.
Qed.

(** C10: when the delete button has no [data-name], or an empty one, the
    confirmation dialog names the item ['this item']. *)
Theorem delete_default_display_name (button : element) (e : env) (d : dom) :
  getAttribute button (lit "data-name") = None \/
  getAttribute button (lit "data-name") = Some [] ->
  confirmation_messages (trace_of (handleDeleteButtons button e d)) =
  [match confirm_modal e with
   | Some _ => delete_modal_message (lit "this item")
   | None => delete_confirm_message (lit "this item")
   end].
Proof.
  intros H. rewrite handleDeleteButtons_dialog.
  destruct H as [-> | ->]; reflexivity.
Qed.

Lemma delete_default_display_name_witness :
  let missing := {| attributes := [(lit "data-id", lit "12")] |} in
  let empty := button_with "12" "" in
  let native := env_with true None false None Throws Throws VNull in
  let modal := env_with true (Some false) false None Throws Throws VNull in
  confirmation_messages (trace_of (handleDeleteButtons missing native empty_dom))
    = [lit "Delete " ++ dquote ++ lit "this item" ++ dquote ++ lit "?"] /\
  confirmation_messages (trace_of (handleDeleteButtons empty modal empty_dom))
    = [lit "Are you sure you want to delete " ++ dquote ++ lit "this item"
         ++ dquote ++ lit "? This action cannot be undone."].
Proof.
  split.
  - apply (@delete_default_display_name
             {| attributes := [(lit "data-id", lit "12")] |}
             (env_with true None false None Throws Throws VNull) empty_dom).
    left; reflexivity.
  - apply (@delete_default_display_name (button_with "12" "")
             (env_with true (Some false) false None Throws Throws VNull)
             empty_dom).
    right; reflexivity.
Defined.

(** C6, as the code has it: for a delete button whose [data-name] is
    present and not empty, the name in the confirmation dialog is that
    value unchanged when it has at most 30 code units, and otherwise its
    first 30 code units followed by ['...']. *)
Theorem delete_display_name_truncated
  (button : element) (name : jsstring) (e : env) (d : dom) :
  getAttribute button (lit "data-name") = Some name ->
  name <> [] ->
  let shown := if List.length name <=? 30 then name
               else firstn 30 name ++ lit "..." in
  confirmation_messages (trace_of (handleDeleteButtons button e d)) =
  [match confirm_modal e with
   | Some _ => delete_modal_message shown
   | None => delete_confirm_message shown
   end].
Proof.
  intros Hattr Hne shown; subst shown.
  rewrite handleDeleteButtons_dialog, Hattr.
  assert (Hname : attr_or (Some name) (lit "this item") = name).
  { destruct name; [congruence | reflexivity]. }
  rewrite Hname. unfold itemName. rewrite substring_prefix.
  destruct (Nat.ltb_spec 30 (List.length name)) as [Hlong|Hshort].
  - destruct (Nat.leb_spec (List.length name) 30); [lia | reflexivity].
  - destruct (Nat.leb_spec (List.length name) 30); [reflexivity | lia].
Qed.

(** The example of the specification: the 57 code units of the long title
    are cut to the 30 of ["A very very very long folder t"], then ['...']. *)
Lemma delete_display_name_truncated_witness :
  let long :=
    button_with "12"
      "A very very very long folder title exceeding thirty chars" in
  let native := env_with true None true None Throws Throws VNull in
  List.length (lit "A very very very long folder t") = 30 /\
  confirmation_messages (trace_of (handleDeleteButtons long native empty_dom))
  = [delete_confirm_message (lit "A very very very long folder t...")].
Proof.
  split; [reflexivity|].
  apply (@delete_display_name_truncated
           (button_with "12"
              "A very very very long folder title exceeding thirty chars")
           (lit "A very very very long folder title exceeding thirty chars")
           (env_with true None true None Throws Throws VNull) empty_dom).
  - reflexivity.
  - discriminate.
Defined.

(** C6 as stated fails for an empty [data-name]: its length, 0, is at
    most 30, yet the dialog does not show it unchanged but shows
    ['this item']. *)
Lemma delete_display_name_empty_not_unchanged :
  let button := button_with "12" "" in
  let native := env_with true None true None Throws Throws VNull in
  getAttribute button (lit "data-name") = Some [] /\
  List.length (@nil N) <= 30 /\
  confirmation_messages (trace_of (handleDeleteButtons button native empty_dom))
    = [delete_confirm_message (lit "this item")] /\
  confirmation_messages (trace_of (handleDeleteButtons button native empty_dom))
    <> [delete_confirm_message []].
Proof.
  repeat split; try reflexivity.
  - simpl; lia.
  - vm_compute. discriminate.
Qed.

(** ** Favorites *)

(** C5: a click on a favorite toggle posts, to the favorite endpoint of the
    item, a body whose [favorite] is the negation of what [data-favorite]
    records: [true] exactly when the attribute is not the string ['true']. *)
Theorem favorite_toggle_sends_negation (button : element) (e : env) (d : dom) :
  let recorded := getAttribute button (lit "data-favorite") in
  let id := JsString.of_attr (getAttribute button (lit "data-id")) in
  exists target : bool,
    fetches (trace_of (handleFavoriteToggles button e d)) =
      [json_post (lit "/clipboard/" ++ id ++ lit "/favorite")
                 (VObj [(lit "favorite", VBool target)])] /\
    target = negb (attr_is recorded (lit "true")) /\
    (target = true <-> recorded <> Some (lit "true")).
Proof.
  intros recorded id; subst recorded id.
  exists (negb (attr_is (getAttribute button (lit "data-favorite"))
                        (lit "true"))).
  split; [|split; [reflexivity|]].
  - unfold json_post. run_script; reflexivity.
  - rewrite negb_true_iff. unfold attr_is.
    destruct (getAttribute button (lit "data-favorite")) as [s|].
    + destruct (JsString.eqb s (lit "true")) eqn:E.
      * apply eqb_eq in E. subst s. split; [discriminate | congruence].
      * split; [|reflexivity]. intros _ H. injection H as ->.
        rewrite eqb_refl in E. discriminate.
    + split; [discriminate | reflexivity].
Qed.

(** C8, as the code has it: when the favorite endpoint answers with status
    ['success'], a reload is scheduled after 500 ms, and, if
    [window.showToast] is defined, one success toast is shown whose text
    follows the [favorite] field of the response: ['Added to favorites']
    when it is truthy, ['Removed from favorites'] otherwise.  Without
    [window.showToast] no toast is shown. *)
Theorem favorite_success_feedback
  (button : element) (e : env) (d : dom) (r favorite : value) :
  let t := trace_of (handleFavoriteToggles button e d) in
  (forall q, In q (fetches t) -> net_fetch e q = Ok (Ok r)) ->
  get_prop r (lit "status") = Ok (str "success") ->
  get_prop r (lit "favorite") = Ok favorite ->
  toasts t =
    (if has_showToast e
     then [(if truthy favorite then str "Added to favorites"
            else str "Removed from favorites", lit "success")]
     else []) /\
  reloads t = [500%N].
Proof.
  intros t H Hst Hfav; subst t. revert H.
  run_script; intros H; pose proof (H _ (or_introl eq_refl)) as Hq;
    try congruence;
    match goal with
    | H1 : net_fetch _ _ = Ok (Ok ?r0) |- _ =>
        assert (r0 = r) by congruence; subst r0
    end;
    repeat match goal with
    | H1 : get_prop r ?k = _, H2 : get_prop r ?k = _ |- _ =>
        rewrite H1 in H2; first [discriminate | injection H2 as <-]
    end;
    try (unfold str in *; cbn in *; rewrite eqb_refl in *; discriminate);
    split; reflexivity.
Qed.

(** The example of the specification, in a page that defines
    [window.showToast]. *)
Lemma favorite_success_feedback_witness :
  let button :=
    {| attributes := [(lit "data-id", lit "123");
                      (lit "data-favorite", lit "false")] |} in
  let r := VObj [(lit "status", str "success"); (lit "favorite", VBool true)] in
  let e := env_with true None false None Throws Throws r in
  let t := trace_of (handleFavoriteToggles button e empty_dom) in
  fetches t = [json_post (lit "/clipboard/123/favorite")
                         (VObj [(lit "favorite", VBool true)])] /\
  toasts t = [(str "Added to favorites", lit "success")] /\
  reloads t = [500%N].
Proof.
  split; [reflexivity|].
  apply (@favorite_success_feedback
           {| attributes := [(lit "data-id", lit "123");
                             (lit "data-favorite", lit "false")] |}
           (env_with true None false None Throws Throws
              (VObj [(lit "status", str "success");
                     (lit "favorite", VBool true)]))
           empty_dom
           (VObj [(lit "status", str "success"); (lit "favorite", VBool true)])
           (VBool true)).
  - intros q _. reflexivity.
  - reflexivity.
  - reflexivity.
Defined.

(** C8 as stated fails in a page without [window.showToast]: the same
    response schedules the reload but shows no toast at all. *)
Lemma favorite_success_without_showToast :
  let button :=
    {| attributes := [(lit "data-id", lit "123");
                      (lit "data-favorite", lit "false")] |} in
  let r := VObj [(lit "status", str "success"); (lit "favorite", VBool true)] in
  let e := env_with false None false None Throws Throws r in
  let t := trace_of (handleFavoriteToggles button e empty_dom) in
  fetches t = [json_post (lit "/clipboard/123/favorite")
                         (VObj [(lit "favorite", VBool true)])] /\
  toasts t = [] /\
  reloads t = [500%N].
Proof. repeat split. Qed.

(** ** Failures reported by the server *)

Ltac break_match :=
  match goal with
  | |- context [match ?x with _ => _ end] =>
      lazymatch x with
      | context [match _ with _ => _ end] => fail
      | _ => lazymatch type of x with
             | env => fail
             | _ => destruct x eqn:?
             end
      end
  end; cbn in *; try congruence.

(** C7, as the code has it: whichever listener sent the request, when the
    parsed response has a status other than ['success'] no second request
    is sent and no reload is scheduled; if [window.showToast] is defined
    one error toast is shown, carrying the [message] of the response when
    that is truthy and the generic text of the listener otherwise (also for
    a [message] that is present but empty); without [window.showToast]
    nothing is shown. *)
Theorem server_failure_reported_once
  (h : net_handler) (e : env) (d : dom) (r status : value) :
  let t := trace_of (run_handler h e d) in
  (forall q, In q (fetches t) -> net_fetch e q = Ok (Ok r)) ->
  fetches t <> [] ->
  get_prop r (lit "status") = Ok status ->
  strict_eq_str status (lit "success") = false ->
  List.length (fetches t) = 1 /\
  reloads t = [] /\
  toasts t =
    if has_showToast e
    then [(js_or (message_of r) (str (fallback_message h)), lit "error")]
    else [].
Proof.
  intros t H Hne Hst Hs; subst t. revert H Hne.
  unfold message_of.
  destruct h; unfold run_handler, fallback_message;
    unfold_script; unfold_m; cbn.
  all: repeat break_match.
  all: intros H Hne; try congruence.
  all: pose proof (H _ (or_introl eq_refl)) as Hq; try congruence.
  all: match goal with
       | H1 : net_fetch _ _ = Ok (Ok ?r0) |- _ =>
           assert (r0 = r) by congruence; subst r0
       end; try congruence.
  all: repeat split; try reflexivity; congruence.
Qed.

Lemma server_failure_reported_once_witness :
  let r := VObj [(lit "status", str "error");
                 (lit "message", str "Folder is not empty")] in
  let e := env_with true (Some true) false None Throws Throws r in
  let t := trace_of (run_handler (FolderDelete (button_with "4" "Work"))
                                 e empty_dom) in
  fetches t = [json_post (lit "/clipboard/folders/4/delete") (VObj [])] /\
  List.length (fetches t) = 1 /\
  reloads t = [] /\
  toasts t = [(str "Folder is not empty", lit "error")].
Proof.
  split; [reflexivity|].
  apply (@server_failure_reported_once
           (FolderDelete (button_with "4" "Work"))
           (env_with true (Some true) false None Throws Throws
              (VObj [(lit "status", str "error");
                     (lit "message", str "Folder is not empty")]))
           empty_dom
           (VObj [(lit "status", str "error");
                  (lit "message", str "Folder is not empty")])
           (str "error")).
  - intros q _. reflexivity.
  - vm_compute. discriminate.
  - reflexivity.
  - reflexivity.
Defined.

(** C7 as stated fails twice over.  In a page without [window.showToast]
    the [message] of the response is not shown (nothing is); and a
    [message] that is present but empty is replaced by the generic text. *)
Lemma server_failure_message_not_always_shown :
  let button := button_with "4" "Work" in
  let told := VObj [(lit "status", str "error");
                    (lit "message", str "Folder is not empty")] in
  let mute := VObj [(lit "status", str "error"); (lit "message", str "")] in
  let no_toast := env_with false (Some true) false None Throws Throws told in
  let with_toast := env_with true (Some true) false None Throws Throws mute in
  (get_prop told (lit "message") = Ok (str "Folder is not empty") /\
   fetches (trace_of (handleFolderDelete button no_toast empty_dom))
     = [json_post (lit "/clipboard/folders/4/delete") (VObj [])] /\
   toasts (trace_of (handleFolderDelete button no_toast empty_dom)) = []) /\
  (get_prop mute (lit "message") = Ok (str "") /\
   toasts (trace_of (handleFolderDelete button with_toast empty_dom))
     = [(str "Failed to delete folder", lit "error")]).
Proof. repeat split. Qed.

(** ** The create-entry form *)

(** C3, as the code has it: submitting the create-entry form with a
    [clipboard_data] that is missing, empty or all white space sends no
    request, in either copy of the listener; the validation error
    ['Please enter some text'] is shown when [window.showToast] is defined,
    and nothing is shown when it is not. *)
Theorem blank_entry_rejected (f : form) (e : env) (d : dom) :
  match clipboard_data f with
  | Some v => forallb JsString.is_whitespace v = true
  | None => True
  end ->
  let t1 := trace_of (V1.handleClipboardForm f e d) in
  let t2 := trace_of (V2.handleClipboardForm f e d) in
  let shown := if has_showToast e
               then [(str "Please enter some text", lit "error")]
               else [] in
  (fetches t1 = [] /\ toasts t1 = shown) /\
  (fetches t2 = [] /\ toasts t2 = shown).
Proof.
  intros Hblank t1 t2 shown; subst t1 t2 shown.
  unfold V1.handleClipboardForm, V2.handleClipboardForm.
  destruct (clipboard_data f) as [v|].
  - apply trim_blank in Hblank. rewrite Hblank.
    run_script; repeat split.
  - run_script; repeat split.
Qed.

Lemma blank_entry_rejected_witness :
  let f := {| clipboard_data := Some [32; 9; 10; 160]%N;
              submit_button := true;
              form_entries := [(lit "clipboard_data", FText ([32; 9; 10; 160]%N))] |} in
  let e := env_with true None false None Throws Throws VNull in
  (fetches (trace_of (V1.handleClipboardForm f e empty_dom)) = [] /\
   toasts (trace_of (V1.handleClipboardForm f e empty_dom))
     = [(str "Please enter some text", lit "error")]) /\
  (fetches (trace_of (V2.handleClipboardForm f e empty_dom)) = [] /\
   toasts (trace_of (V2.handleClipboardForm f e empty_dom))
     = [(str "Please enter some text", lit "error")]).
Proof.
  apply (@blank_entry_rejected
           {| clipboard_data := Some [32; 9; 10; 160]%N;
              submit_button := true;
              form_entries := [(lit "clipboard_data", FText ([32; 9; 10; 160]%N))] |}
           (env_with true None false None Throws Throws VNull) empty_dom).
  reflexivity.
Defined.

(** C3 as stated fails in a page without [window.showToast]: a blank
    submission is dropped silently, the second copy only moves the focus
    to the text area. *)
Lemma blank_entry_without_showToast :
  let f := {| clipboard_data := Some (lit "   ");
              submit_button := true;
              form_entries := [(lit "clipboard_data", FText (lit "   "))] |} in
  let e := env_with false None false None Throws Throws VNull in
  JsString.trim (lit "   ") = [] /\
  trace_of (V1.handleClipboardForm f e empty_dom) = [EPreventDefault] /\
  trace_of (V2.handleClipboardForm f e empty_dom) = [EPreventDefault; EFocus] /\
  toasts (trace_of (V1.handleClipboardForm f e empty_dom)) = [] /\
  toasts (trace_of (V2.handleClipboardForm f e empty_dom)) = [].
Proof. repeat split. Qed.

(** ** Renaming a folder *)

(** A blank answer, or none, sends nothing: in the prompt of either copy
    and in the inline editor. *)
Lemma rename_blank_sends_nothing
  (button : element) (input : jsstring) (e : env) (d : dom) :
  match native_prompt e (lit "Rename folder")
          (attr_or (getAttribute button (lit "data-name")) []) with
  | Some v => forallb JsString.is_whitespace v = true
  | None => True
  end ->
  forallb JsString.is_whitespace input = true ->
  fetches (trace_of (V1.handleFolderRename button e d)) = [] /\
  fetches (trace_of (V2.handleFolderRename button false e d)) = [] /\
  fetches (trace_of (V2.saveRename button input e d)) = [].
Proof.
  intros Hprompt Hinput. apply trim_blank in Hinput.
  unfold V1.handleFolderRename, V2.handleFolderRename, V2.saveRename, prompt.
  rewrite Hinput. unfold_m. cbn.
  destruct (native_prompt e (lit "Rename folder")
              (attr_or (getAttribute button (lit "data-name")) []))
    as [v|]; cbn.
  - apply trim_blank in Hprompt. rewrite Hprompt.
    destruct v; cbn; repeat split.
  - repeat split.
Qed.

(** The inline editor also sends nothing when the trimmed text is the name
    the folder already has. *)
Lemma saveRename_unchanged_sends_nothing
  (button : element) (input : jsstring) (e : env) (d : dom) :
  JsString.trim input = attr_or (getAttribute button (lit "data-name")) [] ->
  trace_of (V2.saveRename button input e d) = [ELinkRestored].
Proof.
  intros Hsame. unfold V2.saveRename. rewrite Hsame, eqb_refl, orb_true_r.
  reflexivity.
Qed.

(** C2, at the inputs where the code departs from it: the prompt is
    pre-filled with the current name, and when the user accepts it
    unchanged the prompt variant (the first copy, and the fallback of the
    second) posts that same name to the rename endpoint.  Only the inline
    editor compares the new name with the old one. *)
Theorem prompt_rename_posts_unchanged_name
  (button : element) (name : jsstring) (e : env) (d : dom) :
  getAttribute button (lit "data-name") = Some name ->
  name <> [] ->
  JsString.trim name = name ->
  native_prompt e (lit "Rename folder") name = Some name ->
  let q := json_post (rename_url (getAttribute button (lit "data-id")))
                     (VObj [(lit "name", VStr name)]) in
  fetches (trace_of (V1.handleFolderRename button e d)) = [q] /\
  fetches (trace_of (V2.handleFolderRename button false e d)) = [q].
Proof.
  intros Hattr Hne Htrim Hprompt q; subst q.
  unfold V1.handleFolderRename, V2.handleFolderRename, prompt, nonblank,
    json_post.
  rewrite Hattr.
  destruct name as [|c name]; [congruence|].
  unfold_m. cbn. rewrite Hprompt, Htrim. cbn.
  split; run_script; reflexivity.
Qed.

Lemma prompt_rename_posts_unchanged_name_witness :
  let button := button_with "4" "Work" in
  let r := VObj [(lit "status", str "success")] in
  let e := env_with true None false (Some (lit "Work")) Throws Throws r in
  let q := json_post (lit "/clipboard/folders/4/rename")
                     (VObj [(lit "name", str "Work")]) in
  fetches (trace_of (V1.handleFolderRename button e empty_dom)) = [q] /\
  fetches (trace_of (V2.handleFolderRename button false e empty_dom)) = [q].
Proof.
  apply (@prompt_rename_posts_unchanged_name (button_with "4" "Work")
           (lit "Work")
           (env_with true None false (Some (lit "Work")) Throws Throws
              (VObj [(lit "status", str "success")]))
           empty_dom).
  - reflexivity.
  - discriminate.
  - reflexivity.
  - reflexivity.
Defined.

(* ================================================================== *)
(** * Further properties *)

(** ** More concrete runs *)

Section ButtonRuns.

Let copy_button : element :=
  {| attributes := [(lit "data-content", lit "hello")] |}.
Let share_button : element :=
  {| attributes := [(lit "data-url", lit "https://example.org/c/7")] |}.
Let bare_button : element := {| attributes := [] |}.
Let granted : env := env_with true None false None (Ok tt) Throws VNull.
Let denied : env := env_with true None false None Throws Throws VNull.

Example handleCopyButtons_v1_copied :
  trace_of (Buttons1.handleCopyButtons copy_button sample_look granted
                                       empty_dom)
  = [EWriteText (lit "hello");
     EToast (str "Copied to clipboard!") (lit "success")].
Proof. reflexivity. Qed.

Example handleCopyButtons_v1_no_attribute :
  trace_of (Buttons1.handleCopyButtons bare_button sample_look granted
                                       empty_dom)
  = [EWriteText (lit "null");
     EToast (str "Copied to clipboard!") (lit "success")].
Proof. reflexivity. Qed.

Example handleCopyButtons_v2_denied :
  trace_of (Buttons2.handleCopyButtons copy_button sample_look denied
                                       empty_dom)
  = [EWriteText (lit "hello"); ESelect; EExecCommand (lit "copy");
     EToast (str "Failed to copy") (lit "error")].
Proof. reflexivity. Qed.

Example handleShareButtons_v1_copied :
  trace_of (Buttons1.handleShareButtons share_button sample_look granted
                                        empty_dom)
  = [EWriteText (lit "https://example.org/c/7");
     EToast (str "Link copied!") (lit "success")].
Proof. reflexivity. Qed.

Example handleShareButtons_v2_denied :
  trace_of (Buttons2.handleShareButtons share_button sample_look denied
                                        empty_dom)
  = [EWriteText (lit "https://example.org/c/7"); ESelect;
     EExecCommand (lit "copy");
     EToast (str "Failed to copy link") (lit "error")].
Proof. reflexivity. Qed.

Example showButtonSuccess_look :
  fst (Buttons2.showButtonSuccess sample_look (lit "Copy") 2000)
  = {| innerHTML := check_icon;
       classList := [lit "btn"; lit "btn-primary"; lit "btn-copy-success"] |}.
Proof. reflexivity. Qed.

End ButtonRuns.

(** ** More on strings *)

Section TrimFacts.

Lemma trimStart_idempotent (s : jsstring) :
  JsString.trimStart (JsString.trimStart s) = JsString.trimStart s.
Proof.
  induction s as [|c s IH]; simpl; [reflexivity|].
  destruct (JsString.is_whitespace c) eqn:E; [exact IH|].
  simpl. now rewrite E.
Qed.

(** What [trimStart] keeps is a suffix. *)
Lemma trimStart_suffix (s : jsstring) :
  exists p, s = p ++ JsString.trimStart s.
Proof.
  induction s as [|c s [p IH]]; simpl; [now exists []|].
  destruct (JsString.is_whitespace c).
  - exists (c :: p). simpl. now f_equal.
  - now exists [].
Qed.

(** Trimming a string that starts with a character other than white space
    leaves its start alone. *)
Lemma trimStart_head (c : N) (s : jsstring) :
  JsString.is_whitespace c = false -> JsString.trimStart (c :: s) = c :: s.
Proof. intros H. simpl. now rewrite H. Qed.

Lemma trimStart_nonblank_head (s : jsstring) :
  JsString.trimStart s <> [] ->
  exists c r, JsString.trimStart s = c :: r /\
              JsString.is_whitespace c = false.
Proof.
  induction s as [|x s IH]; simpl; [congruence|].
  destruct (JsString.is_whitespace x) eqn:E; [exact IH|].
  intros _. now exists x, s.
Qed.

(** Dropping white space at the end keeps a first character that is not
    white space. *)
Lemma trimEnd_keeps_head (c : N) (s : jsstring) :
  JsString.is_whitespace c = false ->
  exists r, JsString.trimEnd (c :: s) = c :: r.
Proof.
  intros Hc. unfold JsString.trimEnd. simpl.
  destruct (trimStart_suffix (rev s ++ [c])) as [p Hp].
  assert (Hne : JsString.trimStart (rev s ++ [c]) <> []).
  { intros H. apply trimStart_blank in H. rewrite forallb_app in H.
    apply andb_true_iff in H as [_ H]. simpl in H. rewrite Hc in H.
    discriminate. }
  destruct (exists_last Hne) as (t & y & E). rewrite E in Hp |- *.
  rewrite app_assoc in Hp. apply app_inj_tail in Hp as [_ <-].
  rewrite rev_app_distr. simpl. now eexists.
Qed.

Lemma trim_idempotent (s : jsstring) :
  JsString.trim (JsString.trim s) = JsString.trim s.
Proof.
  unfold JsString.trim.
  destruct (JsString.trimStart s) as [|c r] eqn:E; [reflexivity|].
  assert (Hc : JsString.is_whitespace c = false).
  { destruct (@trimStart_nonblank_head s) as (c' & r' & E' & Hc');
      [rewrite E; discriminate|]. rewrite E in E'. now injection E' as <- _. }
  destruct (@trimEnd_keeps_head c r Hc) as [r' Hr]. rewrite Hr.
  rewrite (@trimStart_head c r' Hc). rewrite <- Hr.
  unfold JsString.trimEnd. rewrite rev_involutive, trimStart_idempotent.
  reflexivity.
Qed.

End TrimFacts.

(** ** Display names *)

(** The name shown in the delete dialog has at most 33 code units, and its
    first 30 are those of the name it was made from. *)
Theorem itemName_bounded (name : jsstring) :
  List.length (itemName name) <= 33 /\
  firstn 30 (itemName name) = firstn 30 name.
Proof.
  unfold itemName. rewrite substring_prefix.
  destruct (Nat.ltb_spec 30 (List.length name)) as [Hlong|Hshort].
  - split.
    + rewrite length_app, length_firstn.
      change (List.length (lit "...")) with 3. lia.
    + rewrite firstn_app, length_firstn.
      replace (30 - Nat.min 30 (List.length name)) with 0 by lia.
      rewrite firstn_O, app_nil_r, firstn_firstn. reflexivity.
  - split; [lia | reflexivity].
Qed.

(** The text written into the [value] attribute of the inline editor holds
    no double quote, whatever the folder is called. *)
Theorem escape_quot_no_quote (name : jsstring) :
  Forall (fun c => c <> 34%N) (V2.escape_quot name).
Proof.
  unfold V2.escape_quot.
  induction name as [|c name IH]; simpl; [constructor|].
  apply Forall_app. split; [|exact IH].
  destruct (N.eqb_spec c 34) as [->|Hc].
  - vm_compute. repeat constructor; discriminate.
  - now repeat constructor.
Qed.

(** ** Renaming, continued *)


(** Whatever path a rename takes (the prompt of either copy, or the inline
    editor), a request it sends goes to the rename endpoint of the folder
    and carries a name that is not empty and has no white space at either
    end. *)
Theorem rename_posts_trimmed_name
  (button : element) (has_link : bool) (input : jsstring)
  (e : env) (d : dom) (q : request) :
  In q (fetches (trace_of (V1.handleFolderRename button e d))
        ++ fetches (trace_of (V2.handleFolderRename button has_link e d))
        ++ fetches (trace_of (V2.saveRename button input e d))) ->
  trimmed_name_request (getAttribute button (lit "data-id")) q.
Proof.
  assert (Hgood : forall n, JsString.trim n <> [] ->
            trimmed_name_request (getAttribute button (lit "data-id"))
              (json_post (rename_url (getAttribute button (lit "data-id")))
                         (VObj [(lit "name", VStr (JsString.trim n))]))).
  { intros n Hn. exists (JsString.trim n).
    split; [reflexivity|]. split; [exact Hn | apply trim_idempotent]. }
  rewrite !in_app_iff. intros [H | [H | H]]; revert H.
  - unfold V1.handleFolderRename, prompt, nonblank. unfold_m. cbn.
    destruct (native_prompt e (lit "Rename folder")
                (attr_or (getAttribute button (lit "data-name")) []))
      as [n|]; cbn; [|tauto].
    destruct n as [|c n]; cbn; [tauto|].
    destruct (JsString.is_empty (JsString.trim (c :: n))) eqn:E;
      cbn; [tauto|].
    assert (Hn : JsString.trim (c :: n) <> []).
    { intros Hn. rewrite Hn in E. discriminate. }
    run_script; (intros [<- | []]); apply (Hgood _ Hn).
  - unfold V2.handleFolderRename, prompt, nonblank. unfold_m.
    destruct has_link; cbn; [tauto|].
    destruct (native_prompt e (lit "Rename folder")
                (attr_or (getAttribute button (lit "data-name")) []))
      as [n|]; cbn; [|tauto].
    destruct n as [|c n]; cbn; [tauto|].
    destruct (JsString.is_empty (JsString.trim (c :: n))) eqn:E;
      cbn; [tauto|].
    assert (Hn : JsString.trim (c :: n) <> []).
    { intros Hn. rewrite Hn in E. discriminate. }
    run_script; (intros [<- | []]); apply (Hgood _ Hn).
  - unfold V2.saveRename.
    destruct (JsString.is_empty (JsString.trim input)) eqn:E;
      cbn; [tauto|].
    assert (Hn : JsString.trim input <> []).
    { intros Hn. rewrite Hn in E. discriminate. }
    destruct (JsString.eqb (JsString.trim input)
                (attr_or (getAttribute button (lit "data-name")) []));
      cbn; [tauto|].
    run_script; (intros [<- | []]); apply (Hgood _ Hn).
Qed.

Lemma rename_posts_trimmed_name_witness :
  let button := button_with "4" "Work" in
  let r := VObj [(lit "status", str "success")] in
  let e := env_with true None false (Some (lit "  Notes ")) Throws Throws r in
  trimmed_name_request (Some (lit "4"))
    (json_post (lit "/clipboard/folders/4/rename")
               (VObj [(lit "name", str "Notes")])).
Proof.
  apply (@rename_posts_trimmed_name (button_with "4" "Work") false
           (lit " Work ")
           (env_with true None false (Some (lit "  Notes ")) Throws Throws
              (VObj [(lit "status", str "success")]))
           empty_dom).
  vm_compute. left. reflexivity.
Defined.

(** The inline editor gives up, restoring the folder link and doing nothing
    else, exactly when the text in it is blank or, once trimmed, is the
    name the folder already has. *)
Theorem saveRename_cancels_iff
  (button : element) (input : jsstring) (e : env) (d : dom) :
  trace_of (V2.saveRename button input e d) = [ELinkRestored] <->
  JsString.trim input = [] \/
  JsString.trim input = attr_or (getAttribute button (lit "data-name")) [].
Proof.
  unfold V2.saveRename. split.
  - destruct (JsString.trim input) as [|c n] eqn:E; [now left|].
    destruct (JsString.eqb (c :: n)
                (attr_or (getAttribute button (lit "data-name")) [])) eqn:Eq.
    + apply eqb_eq in Eq. now right.
    + cbn. run_script; discriminate.
  - intros [-> | ->]; [reflexivity|].
    rewrite eqb_refl, orb_true_r. reflexivity.
Qed.

(** The second copy never leaves a button spinning: after the create-entry
    form or the inline editor has run, the button is still in its loading
    state only if a reload of the page has been scheduled. *)
Theorem loading_only_before_reload
  (f : form) (button : element) (input : jsstring) (e : env) (d : dom)
  (t : trace) :
  t = trace_of (V2.handleClipboardForm f e d) \/
  t = trace_of (V2.saveRename button input e d) ->
  loading_after t = true ->
  exists delay_ms, reloads t = [delay_ms].
Proof.
  intros [-> | ->].
  - unfold V2.handleClipboardForm.
    destruct (JsString.is_empty _); destruct (clipboard_data f);
      destruct (submit_button f); run_script; cbn;
      try congruence; intros _; eexists; reflexivity.
  - unfold V2.saveRename.
    destruct (_ || _); run_script; cbn;
      try congruence; intros _; eexists; reflexivity.
Qed.

Lemma loading_only_before_reload_witness :
  let f := {| clipboard_data := Some (lit "hello"); submit_button := true;
              form_entries := [(lit "clipboard_data", FText (lit "hello"))] |} in
  let e := env_with true None false None Throws Throws
             (VObj [(lit "status", str "success")]) in
  loading_after (trace_of (V2.handleClipboardForm f e empty_dom)) = true /\
  exists delay_ms,
    reloads (trace_of (V2.handleClipboardForm f e empty_dom)) = [delay_ms].
Proof.
  split; [reflexivity|].
  apply (@loading_only_before_reload
           {| clipboard_data := Some (lit "hello"); submit_button := true;
              form_entries := [(lit "clipboard_data", FText (lit "hello"))] |}
           (button_with "4" "Work") (lit "Notes")
           (env_with true None false None Throws Throws
              (VObj [(lit "status", str "success")]))
           empty_dom).
  - left; reflexivity.
  - reflexivity.
Defined.

(** ** All listeners that talk to the server *)

Lemma get_prop_throws (r : value) (k k' : jsstring) :
  get_prop r k = Throws -> get_prop r k' = Throws.
Proof.
  destruct r; simpl; try discriminate; try reflexivity.
  destruct (lookup_field fields k); discriminate.
Qed.



(** When the request rejects, or its body is not JSON, or it parses to
    [null], the listener sends nothing more and schedules no reload; if
    [window.showToast] is defined it shows its generic error text once. *)
Theorem transport_failure_reported_once
  (h : net_handler) (e : env) (d : dom) :
  let t := trace_of (run_handler h e d) in
  (forall q, In q (fetches t) -> unreadable (net_fetch e q) = true) ->
  fetches t <> [] ->
  List.length (fetches t) = 1 /\
  reloads t = [] /\
  toasts t = if has_showToast e
             then [(str (fallback_message h), lit "error")]
             else [].
Proof.
  intros t H Hne; subst t. revert H Hne.
  destruct h; unfold run_handler, fallback_message;
    unfold_script; unfold_m; cbn.
  all: repeat break_match.
  all: intros H Hne; try congruence.
  all: pose proof (H _ (or_introl eq_refl)) as Hq.
  all: try (match goal with
            | H1 : net_fetch _ ?q = _ |- _ => rewrite H1 in Hq
            end; cbn in Hq;
            repeat match goal with
                   | H1 : get_prop ?r _ = Ok _ |- _ =>
                       destruct r; cbn in H1; try discriminate
                   end;
            try discriminate).
  all: repeat split; reflexivity.
Qed.

Lemma transport_failure_reported_once_witness :
  let offline :=
    {| has_showToast := true; confirm_modal := None;
       native_confirm := fun _ => true;
       native_prompt := fun _ _ => None;
       clipboard_writeText := fun _ => Throws;
       document_execCommand := fun _ => Throws;
       net_fetch := fun _ => Throws |} in
  let t := trace_of (run_handler (DeleteItem (button_with "7" "Draft"))
                                 offline empty_dom) in
  List.length (fetches t) = 1 /\
  reloads t = [] /\
  toasts t = [(str "Failed to delete", lit "error")].
Proof.
  apply (@transport_failure_reported_once
           (DeleteItem (button_with "7" "Draft"))
           {| has_showToast := true; confirm_modal := None;
              native_confirm := fun _ => true;
              native_prompt := fun _ _ => None;
              clipboard_writeText := fun _ => Throws;
              document_execCommand := fun _ => Throws;
              net_fetch := fun _ => Throws |}
           empty_dom).
  - intros q _. reflexivity.
  - vm_compute. discriminate.
Defined.

(** Once a listener has its answer, the page is reloaded exactly when the
    status of the answer is ['success']: one reload is scheduled then, after
    1000 ms for the first create-entry form and for deleting an item, 800 ms
    for the second create-entry form and 500 ms for everything else; for any
    other status none is. *)
Theorem reload_exactly_on_success
  (h : net_handler) (e : env) (d : dom) (r status : value) :
  let t := trace_of (run_handler h e d) in
  (forall q, In q (fetches t) -> net_fetch e q = Ok (Ok r)) ->
  fetches t <> [] ->
  get_prop r (lit "status") = Ok status ->
  reloads t = if strict_eq_str status (lit "success")
              then [reload_delay h]
              else [].
Proof.
  intros t H Hne Hst; subst t. revert H Hne.
  destruct h; unfold run_handler, reload_delay;
    unfold_script; unfold_m; cbn.
  all: repeat break_match.
  all: intros H Hne; try congruence.
  all: pose proof (H _ (or_introl eq_refl)) as Hq; try congruence.
  all: match goal with
       | H1 : net_fetch _ _ = Ok (Ok ?r0) |- _ =>
           assert (r0 = r) by congruence; subst r0
       end; try congruence.
  all: match goal with
       | H1 : get_prop ?x _ = Throws |- _ =>
           apply (@get_prop_throws x _ (lit "status")) in H1; congruence
       end.
Qed.

Lemma reload_exactly_on_success_witness :
  let e := env_with false None false None Throws Throws
             (VObj [(lit "status", str "success")]) in
  let f := {| clipboard_data := Some (lit "hello"); submit_button := false;
              form_entries := [(lit "clipboard_data", FText (lit "hello"))] |} in
  reloads (trace_of (run_handler (ClipboardForm2 f) e empty_dom)) = [800%N].
Proof.
  apply (@reload_exactly_on_success
           (ClipboardForm2
              {| clipboard_data := Some (lit "hello"); submit_button := false;
                 form_entries := [(lit "clipboard_data", FText (lit "hello"))] |})
           (env_with false None false None Throws Throws
              (VObj [(lit "status", str "success")]))
           empty_dom
           (VObj [(lit "status", str "success")])
           (str "success")).
  - intros q _. reflexivity.
  - vm_compute. discriminate.
  - reflexivity.
Defined.

(** ** Retention *)

(** The body that a retention-toggle listener posts to the retention
    endpoint of the item carries, as [keep], the negation of what
    [data-keep] records: [true] exactly when the attribute is not the
    string ['true'].  (Each copy of the module binds such a listener.) *)
Theorem retention_toggle_sends_negation
  (button : element) (e : env) (d : dom) :
  let recorded := getAttribute button (lit "data-keep") in
  let id := JsString.of_attr (getAttribute button (lit "data-id")) in
  exists target : bool,
    fetches (trace_of (handleRetentionToggles button e d)) =
      [json_post (lit "/clipboard/" ++ id ++ lit "/retention")
                 (VObj [(lit "keep", VBool target)])] /\
    (target = true <-> recorded <> Some (lit "true")).
Proof.
  intros recorded id; subst recorded id.
  exists (negb (attr_is (getAttribute button (lit "data-keep")) (lit "true"))).
  split.
  - unfold json_post. run_script; reflexivity.
  - rewrite negb_true_iff. unfold attr_is.
    destruct (getAttribute button (lit "data-keep")) as [s|];
      [|split; [discriminate | reflexivity]].
    destruct (JsString.eqb s (lit "true")) eqn:E.
    + apply eqb_eq in E. subst s. split; [discriminate | congruence].
    + split; [|reflexivity]. intros _ H. injection H as ->.
      rewrite eqb_refl in E. discriminate.
Qed.

(** When the retention endpoint answers with status ['success'], a reload
    is scheduled after 500 ms and, if [window.showToast] is defined, one
    success toast follows the [kept] field of the answer:
    ['Kept indefinitely'] when it is truthy, ['Retention restored']
    otherwise. *)
Theorem retention_success_feedback
  (button : element) (e : env) (d : dom) (r kept : value) :
  let t := trace_of (handleRetentionToggles button e d) in
  (forall q, In q (fetches t) -> net_fetch e q = Ok (Ok r)) ->
  get_prop r (lit "status") = Ok (str "success") ->
  get_prop r (lit "kept") = Ok kept ->
  toasts t =
    (if has_showToast e
     then [(if truthy kept then str "Kept indefinitely"
            else str "Retention restored", lit "success")]
     else []) /\
  reloads t = [500%N].
Proof.
  intros t H Hst Hkept; subst t. revert H.
  run_script; intros H; pose proof (H _ (or_introl eq_refl)) as Hq;
    try congruence;
    match goal with
    | H1 : net_fetch _ _ = Ok (Ok ?r0) |- _ =>
        assert (r0 = r) by congruence; subst r0
    end;
    repeat match goal with
    | H1 : get_prop r ?k = _, H2 : get_prop r ?k = _ |- _ =>
        rewrite H1 in H2; first [discriminate | injection H2 as <-]
    end;
    try (unfold str in *; cbn in *; rewrite eqb_refl in *; discriminate);
    split; reflexivity.
Qed.

Lemma retention_success_feedback_witness :
  let button := {| attributes := [(lit "data-id", lit "9");
                                  (lit "data-keep", lit "true")] |} in
  let r := VObj [(lit "status", str "success"); (lit "kept", VBool false)] in
  let e := env_with true None false None Throws Throws r in
  let t := trace_of (handleRetentionToggles button e empty_dom) in
  toasts t = [(str "Retention restored", lit "success")] /\
  reloads t = [500%N].
Proof.
  apply (@retention_success_feedback
           {| attributes := [(lit "data-id", lit "9");
                             (lit "data-keep", lit "true")] |}
           (env_with true None false None Throws Throws
              (VObj [(lit "status", str "success");
                     (lit "kept", VBool false)]))
           empty_dom
           (VObj [(lit "status", str "success"); (lit "kept", VBool false)])
           (VBool false)).
  - intros q _. reflexivity.
  - reflexivity.
  - reflexivity.
Defined.

(** ** Forms *)

Lemma nonblank_trim (v : jsstring) :
  forallb JsString.is_whitespace v = false ->
  JsString.is_empty (JsString.trim v) = false.
Proof.
  intros H. destruct (JsString.trim v) eqn:E; [|reflexivity].
  apply trim_blank in E. congruence.
Qed.

(** Creating a folder with a name that is missing, empty or all white space
    sends no request; the error ['Folder name is required'] is shown when
    [window.showToast] is defined. *)
Theorem folder_create_blank_rejected
  (formData : list (jsstring * form_value)) (e : env) (d : dom) :
  match form_get formData (lit "name") with
  | Some (FText n) => forallb JsString.is_whitespace n = true
  | Some (FFile _) => False
  | None => True
  end ->
  let t := trace_of (handleFolderCreate formData e d) in
  fetches t = [] /\
  toasts t = if has_showToast e
             then [(str "Folder name is required", lit "error")]
             else [].
Proof.
  intros Hblank t; subst t. unfold handleFolderCreate, name_is_blank.
  destruct (form_get formData (lit "name")) as [[n|file]|];
    [|contradiction|].
  - apply trim_blank in Hblank. rewrite Hblank.
    cbn [JsString.is_empty]. rewrite orb_true_r.
    run_script; split; reflexivity.
  - run_script; split; reflexivity.
Qed.

Lemma folder_create_blank_rejected_witness :
  let e := env_with true None false None Throws Throws VNull in
  let t := trace_of (handleFolderCreate [(lit "name", FText [32; 9]%N)] e
                                        empty_dom) in
  fetches t = [] /\
  toasts t = [(str "Folder name is required", lit "error")].
Proof.
  apply (@folder_create_blank_rejected [(lit "name", FText [32; 9]%N)]
           (env_with true None false None Throws Throws VNull) empty_dom).
  reflexivity.
Defined.

(** The forms validate the trimmed text but post what was typed.  When the
    form data of the create-entry form holds the text of its
    [clipboard_data] control, and that text is not blank, the request of
    either copy of the submit listener carries the entries of the form
    unchanged, and so the text itself rather than the trimmed text; the
    same holds for the name in the request of the folder form. *)
Theorem forms_post_entries_unchanged
  (f : form) (formData : list (jsstring * form_value)) (v n : jsstring)
  (e : env) (d : dom) :
  clipboard_data f = Some v ->
  form_get (form_entries f) (lit "clipboard_data") = Some (FText v) ->
  forallb JsString.is_whitespace v = false ->
  form_get formData (lit "name") = Some (FText n) ->
  forallb JsString.is_whitespace n = false ->
  let entry := form_post (lit "/clipboard") (form_entries f) in
  let folder := form_post (lit "/clipboard/folders") formData in
  (fetches (trace_of (V1.handleClipboardForm f e d)) = [entry] /\
   fetches (trace_of (V2.handleClipboardForm f e d)) = [entry] /\
   posted_value entry (lit "clipboard_data") = Some (FText v)) /\
  (fetches (trace_of (handleFolderCreate formData e d)) = [folder] /\
   posted_value folder (lit "name") = Some (FText n)).
Proof.
  intros Hv Hdata Hvb Hn Hnb entry folder; subst entry folder.
  apply nonblank_trim in Hvb. apply nonblank_trim in Hnb.
  unfold V1.handleClipboardForm, V2.handleClipboardForm, handleFolderCreate,
    name_is_blank, form_post, posted_value.
  cbn [req_body_of].
  rewrite Hv, Hn, Hvb, Hnb, Hdata.
  assert (Hne : JsString.is_empty n = false).
  { destruct n; [|reflexivity]. discriminate. }
  rewrite Hne. cbn [orb].
  repeat split; destruct (submit_button f); run_script; reflexivity.
Qed.

(** Typed with white space around it, posted with white space around it. *)
Lemma forms_post_entries_unchanged_witness :
  let f := {| clipboard_data := Some (lit " hi ");
              submit_button := true;
              form_entries := [(lit "clipboard_data", FText (lit " hi "))] |} in
  let formData := [(lit "name", FText (lit " Work "))] in
  let e := env_with true None false None Throws Throws VNull in
  let entry := form_post (lit "/clipboard") (form_entries f) in
  let folder := form_post (lit "/clipboard/folders") formData in
  JsString.trim (lit " hi ") <> lit " hi " /\
  (fetches (trace_of (V1.handleClipboardForm f e empty_dom)) = [entry] /\
   fetches (trace_of (V2.handleClipboardForm f e empty_dom)) = [entry] /\
   posted_value entry (lit "clipboard_data") = Some (FText (lit " hi "))) /\
  (fetches (trace_of (handleFolderCreate formData e empty_dom)) = [folder] /\
   posted_value folder (lit "name") = Some (FText (lit " Work "))).
Proof.
  split; [vm_compute; discriminate|].
  apply (@forms_post_entries_unchanged
           {| clipboard_data := Some (lit " hi ");
              submit_button := true;
              form_entries := [(lit "clipboard_data", FText (lit " hi "))] |}
           [(lit "name", FText (lit " Work "))] (lit " hi ") (lit " Work ")
           (env_with true None false None Throws Throws VNull) empty_dom);
    reflexivity.
Defined.

(** ** Copy and share buttons *)

Lemma copyToClipboard_attr_some (text : jsstring) :
  copyToClipboard_attr (Some text) = copyToClipboard text.
Proof. reflexivity. Qed.

(** [copyToClipboard_attr] returns what [copy_reported] says, shows no
    toast and sends no request. *)
Lemma copyToClipboard_attr_run (content : option jsstring) (e : env) (d : dom) :
  exists d' t,
    copyToClipboard_attr content e d = (Ok (copy_reported e content), d', t)
    /\ toasts t = [] /\ fetches t = [].
Proof.
  unfold copyToClipboard_attr, copy_reported, writeText, createElement,
    appendChild, select, execCommand, removeChild.
  unfold_m. cbn.
  destruct (clipboard_writeText e (JsString.of_attr content)) as [[]|];
    [do 2 eexists; repeat split|].
  cbn.
  set (n := {| node_id := next_id d; tagName := lit "textarea";
               node_value := match content with Some s => s | None => [] end;
               node_style := [(lit "position", lit "fixed");
                              (lit "opacity", lit "0")] |}).
  change (next_id d) with (node_id n).
  destruct (document_execCommand e (lit "copy")) as [b|]; cbn;
    change (next_id d) with (node_id n);
    rewrite existsb_last; do 2 eexists; repeat split.
Qed.

Ltac run_copy content e d :=
  let d' := fresh "d'" in
  let t := fresh "t" in
  let Hrun := fresh "Hrun" in
  let Ht := fresh "Ht" in
  let Hf := fresh "Hf" in
  destruct (copyToClipboard_attr_run content e d)
    as (d' & t & Hrun & Ht & Hf);
  unfold Buttons1.handleCopyButtons, Buttons1.handleShareButtons,
    Buttons2.handleCopyButtons, Buttons2.handleShareButtons,
    Buttons2.showButtonSuccess, toast_outcome, window_showToast, showToast;
  unfold_m; rewrite Hrun; cbn;
  unfold toasts, fetches in *; rewrite ?flat_map_app, ?Ht, ?Hf.

(** The copy and share buttons never talk to the server, always return,
    and their toast, if [window.showToast] is defined, says what
    [copyToClipboard] reported; when it reported a failure the button is
    left as it was and no timer is set.  Both copies agree on this. *)
Theorem copy_buttons_report_outcome
  (button : element) (look : button_look) (e : env) (d : dom) :
  let copied := copy_reported e (getAttribute button (lit "data-content")) in
  let shared := copy_reported e (getAttribute button (lit "data-url")) in
  reports_outcome e look copied "Copied to clipboard!" "Failed to copy"
    (Buttons1.handleCopyButtons button look e d) /\
  reports_outcome e look copied "Copied to clipboard!" "Failed to copy"
    (Buttons2.handleCopyButtons button look e d) /\
  reports_outcome e look shared "Link copied!" "Failed to copy link"
    (Buttons1.handleShareButtons button look e d) /\
  reports_outcome e look shared "Link copied!" "Failed to copy link"
    (Buttons2.handleShareButtons button look e d).
Proof.
  intros copied shared; subst copied shared. unfold reports_outcome.
  repeat split.
  all: try run_copy (getAttribute button (lit "data-content")) e d.
  all: try run_copy (getAttribute button (lit "data-url")) e d.
  all: destruct (copy_reported e _), (has_showToast e); cbn.
  all: rewrite ?flat_map_app, ?Ht, ?Hf; cbn.
  all: try reflexivity; eexists; reflexivity.
Qed.

(** *** Class lists *)

Section ClassListFacts.

Lemma eqb_sym (a b : jsstring) : JsString.eqb a b = JsString.eqb b a.
Proof.
  destruct (JsString.eqb a b) eqn:E.
  - apply eqb_eq in E. subst. symmetry. apply eqb_refl.
  - destruct (JsString.eqb b a) eqn:E'; [|reflexivity].
    apply eqb_eq in E'. subst. rewrite eqb_refl in E. discriminate.
Qed.

Lemma classList_contains_In (c : jsstring) (l : list jsstring) :
  classList_contains c l = true <-> In c l.
Proof.
  unfold classList_contains. rewrite existsb_exists. split.
  - intros (x & Hx & E). apply eqb_eq in E. now subst.
  - intros H. exists c. split; [exact H | apply eqb_refl].
Qed.

Lemma In_classList_add (x c : jsstring) (l : list jsstring) :
  In x (classList_add c l) <-> x = c \/ In x l.
Proof.
  unfold classList_add. destruct (classList_contains c l) eqn:E.
  - apply classList_contains_In in E. split; [now right|].
    intros [-> | H]; assumption.
  - rewrite in_app_iff. simpl. split.
    + intros [H | [<- | []]]; [now right | now left].
    + intros [-> | H]; [right; now left | now left].
Qed.

Lemma In_classList_remove (x c : jsstring) (l : list jsstring) :
  In x (classList_remove c l) <-> In x l /\ x <> c.
Proof.
  unfold classList_remove. rewrite filter_In, negb_true_iff. split.
  - intros [H E]. split; [exact H|]. intros ->.
    rewrite eqb_refl in E. discriminate.
  - intros [H Hne]. split; [exact H|].
    destruct (JsString.eqb c x) eqn:E; [|reflexivity].
    apply eqb_eq in E. congruence.
Qed.

(** Removing a class that was added to a list without it gives the list
    back, order included. *)
Lemma classList_remove_add (c : jsstring) (l : list jsstring) :
  classList_contains c l = false ->
  classList_remove c (classList_add c l) = l.
Proof.
  intros H. unfold classList_add. rewrite H.
  unfold classList_remove. rewrite filter_app. simpl.
  rewrite eqb_refl. simpl. rewrite app_nil_r.
  unfold classList_contains in H.
  induction l as [|x l IH]; simpl in *; [reflexivity|].
  apply orb_false_iff in H as [Hx Hl]. rewrite Hx. simpl.
  now rewrite IH.
Qed.

End ClassListFacts.

(** *** What a click does to the button *)

Lemma handleCopyButtons_v1_run
  (button : element) (look : button_look) (e : env) (d : dom) :
  exists d' t,
    Buttons1.handleCopyButtons button look e d =
    (Ok (if copy_reported e (getAttribute button (lit "data-content"))
         then ({| innerHTML := check_icon;
                  classList :=
                    classList_remove (lit "btn-primary")
                      (classList_add (lit "btn-success") (classList look)) |},
               [{| timer_delay := 2000;
                   timer_callback := fun b =>
                     {| innerHTML := innerHTML look;
                        classList :=
                          classList_add (lit "btn-primary")
                            (classList_remove (lit "btn-success")
                               (classList b)) |} |}])
         else (look, [])), d', t).
Proof.
  run_copy (getAttribute button (lit "data-content")) e d.
  destruct (copy_reported e _), (has_showToast e); cbn;
    do 2 eexists; reflexivity.
Qed.

Lemma handleCopyButtons_v2_run
  (button : element) (look : button_look) (e : env) (d : dom) :
  exists d' t,
    Buttons2.handleCopyButtons button look e d =
    (Ok (if copy_reported e (getAttribute button (lit "data-content"))
         then Buttons2.showButtonSuccess look (innerHTML look) 2000
         else (look, [])), d', t).
Proof.
  run_copy (getAttribute button (lit "data-content")) e d.
  destruct (copy_reported e _), (has_showToast e); cbn;
    do 2 eexists; reflexivity.
Qed.

(** [showButtonSuccess] and the timer it sets undo each other.  Called on a
    button that does not carry the class [btn-copy-success], it puts the
    check mark on it and sets one timer of the given duration; the callback
    of that timer, run on the look [showButtonSuccess] left, gives the
    button the content [originalHtml] and exactly the class list it had
    when [showButtonSuccess] was called, order included.  (This is about
    the function and its own callback; what other listeners do to the
    button in between is not covered.) *)
Theorem showButtonSuccess_round_trip
  (look : button_look) (originalHtml : jsstring) (duration : N) :
  classList_contains (lit "btn-copy-success") (classList look) = false ->
  let shown := fst (Buttons2.showButtonSuccess look originalHtml duration) in
  let timers := snd (Buttons2.showButtonSuccess look originalHtml duration) in
  innerHTML shown = check_icon /\
  classList shown = classList look ++ [lit "btn-copy-success"] /\
  map timer_delay timers = [duration] /\
  fire timers shown =
    {| innerHTML := originalHtml; classList := classList look |}.
Proof.
  intros Hclass shown timers; subst shown timers.
  unfold Buttons2.showButtonSuccess. cbn [fst snd map timer_delay innerHTML
                                           classList].
  split; [reflexivity|]. split.
  - unfold classList_add. now rewrite Hclass.
  - split; [reflexivity|].
    unfold fire. cbn -[classList_remove classList_add].
    now rewrite (classList_remove_add _ _ Hclass).
Qed.

Lemma showButtonSuccess_round_trip_witness :
  let shown := fst (Buttons2.showButtonSuccess sample_look (lit "Copy") 2000) in
  let timers := snd (Buttons2.showButtonSuccess sample_look (lit "Copy") 2000) in
  innerHTML shown = check_icon /\
  classList shown = [lit "btn"; lit "btn-primary"; lit "btn-copy-success"] /\
  map timer_delay timers = [2000%N] /\
  fire timers shown = sample_look.
Proof.
  apply (@showButtonSuccess_round_trip sample_look (lit "Copy") 2000%N).
  reflexivity.
Defined.

(** In the first copy the timer does not put the classes back as they
    were: after a successful copy and its timer the button shows its old
    content again, has lost [btn-success] and carries [btn-primary],
    whether or not it had that class before. *)
Theorem copy_button_ends_primary
  (button : element) (look : button_look) (e : env) (d : dom) :
  copy_reported e (getAttribute button (lit "data-content")) = true ->
  exists look' timers,
    result_of (Buttons1.handleCopyButtons button look e d)
      = Ok (look', timers) /\
    innerHTML look' = check_icon /\
    innerHTML (fire timers look') = innerHTML look /\
    forall c, In c (classList (fire timers look')) <->
              c = lit "btn-primary" \/
              (In c (classList look) /\ c <> lit "btn-success").
Proof.
  intros Hok.
  destruct (handleCopyButtons_v1_run button look e d) as (d' & t & Hrun).
  rewrite Hrun, Hok. unfold result_of.
  do 2 eexists. split; [reflexivity|].
  split; [reflexivity|]. split; [reflexivity|].
  intros c. split; [intros H|].
  - unfold fire in H. cbn -[classList_remove classList_add] in H.
    apply In_classList_add in H as [H | H]; [now left|].
    apply In_classList_remove in H as [H Hs].
    apply In_classList_remove in H as [H Hp].
    apply In_classList_add in H as [H | H]; [congruence|].
    right. now split.
  - unfold fire. cbn -[classList_remove classList_add].
    intros [-> | [H Hs]]; apply In_classList_add; [now left|].
    destruct (list_eq_dec N.eq_dec c (lit "btn-primary")) as [Hp|Hp];
      [now left|]. right.
    apply In_classList_remove. split; [|exact Hs].
    apply In_classList_remove. split; [|exact Hp].
    apply In_classList_add. now right.
Qed.

Lemma copy_button_ends_primary_witness :
  let button := {| attributes := [(lit "data-content", lit "hello")] |} in
  let plain := {| innerHTML := lit "Copy"; classList := [lit "btn"] |} in
  let e := env_with true None false None (Ok tt) Throws VNull in
  exists look' timers,
    result_of (Buttons1.handleCopyButtons button plain e empty_dom)
      = Ok (look', timers) /\
    innerHTML look' = check_icon /\
    innerHTML (fire timers look') = lit "Copy" /\
    forall c, In c (classList (fire timers look')) <->
              c = lit "btn-primary" \/
              (In c [lit "btn"] /\ c <> lit "btn-success").
Proof.
  apply (@copy_button_ends_primary
           {| attributes := [(lit "data-content", lit "hello")] |}
           {| innerHTML := lit "Copy"; classList := [lit "btn"] |}
           (env_with true None false None (Ok tt) Throws VNull) empty_dom).
  reflexivity.
Defined.

(** A second click that comes after the first copy has finished and before
    its timer has fired takes the check mark for the content of the button:
    once both timers have fired the button still shows the check mark, in
    either copy of the listener. *)
Theorem second_click_keeps_check_mark
  (button : element) (look : button_look) (e : env) (d : dom) :
  copy_reported e (getAttribute button (lit "data-content")) = true ->
  (exists look' timers,
     result_of (two_clicks Buttons1.handleCopyButtons button look e d)
       = Ok (look', timers) /\
     innerHTML (fire timers look') = check_icon) /\
  (exists look' timers,
     result_of (two_clicks Buttons2.handleCopyButtons button look e d)
       = Ok (look', timers) /\
     innerHTML (fire timers look') = check_icon).
Proof.
  intros Hok. split; unfold two_clicks, bind, ret.
  - destruct (handleCopyButtons_v1_run button look e d) as (d1 & t1 & H1).
    rewrite H1, Hok. cbn [fst snd].
    match goal with
    | |- context [Buttons1.handleCopyButtons button ?l e d1] =>
        destruct (handleCopyButtons_v1_run button l e d1) as (d2 & t2 & H2)
    end.
    rewrite H2, Hok. unfold result_of. cbn [fst snd].
    do 2 eexists. split; reflexivity.
  - destruct (handleCopyButtons_v2_run button look e d) as (d1 & t1 & H1).
    rewrite H1, Hok. unfold Buttons2.showButtonSuccess at 1. cbn [fst snd].
    match goal with
    | |- context [Buttons2.handleCopyButtons button ?l e d1] =>
        destruct (handleCopyButtons_v2_run button l e d1) as (d2 & t2 & H2)
    end.
    rewrite H2, Hok. unfold result_of, Buttons2.showButtonSuccess.
    cbn [fst snd].
    do 2 eexists. split; reflexivity.
Qed.

Lemma second_click_keeps_check_mark_witness :
  let button := {| attributes := [(lit "data-content", lit "hello")] |} in
  let e := env_with true None false None (Ok tt) Throws VNull in
  innerHTML sample_look <> check_icon /\
  (exists look' timers,
     result_of (two_clicks Buttons1.handleCopyButtons button sample_look e
                           empty_dom) = Ok (look', timers) /\
     innerHTML (fire timers look') = check_icon) /\
  (exists look' timers,
     result_of (two_clicks Buttons2.handleCopyButtons button sample_look e
                           empty_dom) = Ok (look', timers) /\
     innerHTML (fire timers look') = check_icon).
Proof.
  split; [vm_compute; discriminate|].
  apply (@second_click_keeps_check_mark
           {| attributes := [(lit "data-content", lit "hello")] |}
           sample_look
           (env_with true None false None (Ok tt) Throws VNull) empty_dom).
  reflexivity.
Defined.

(** ** The page after a copy *)

